(** * TWIlib: interrupt-driven TWI (I2C) master driver for AVR

    A shallow embedding of [TWIlib.c] (TWIInit, isTWIReady, TWITransmitData,
    TWIReadData and the TWI interrupt service routine) and the properties of
    the driver stated in its specification.

    Conventions of the embedding:
    - C integers are [Z]; a [uint8_t] store that can overflow, and the
      conversion of an argument to a [uint8_t] parameter, are written with
      [to_uint8];
    - the driver's globals form the record [State]; a C statement is a
      function [State -> option State], where [None] stands for an array
      access outside the array (undefined behaviour in C);
    - the hardware side (writes to the data register and the control-register
      macros) is recorded, in order, in the field [bus]. *)

From stdpp Require Import base numbers list.

Open Scope Z_scope.

(** ** What [TWIlib.h] declares *)

(** Modelled from the spec: the header [TWIlib.h] is absent; it defines the
    two buffer capacities and the names of the hardware status codes that the
    [switch] of the interrupt routine dispatches on.  They are taken as
    parameters.  A C [switch] does not compile with two equal case labels,
    which is the only fact about the values that the driver relies on. *)
Class TWIlib_h := {
  TXMAXBUFLEN : Z;
  RXMAXBUFLEN : Z;
  TWI_START_SENT : Z;
  TWI_REP_START_SENT : Z;
  TWI_MT_SLAW_ACK : Z;
  TWI_MT_SLAW_NACK : Z;
  TWI_MT_DATA_ACK : Z;
  TWI_MT_DATA_NACK : Z;
  TWI_MR_SLAR_ACK : Z;
  TWI_MR_SLAR_NACK : Z;
  TWI_MR_DATA_ACK : Z;
  TWI_MR_DATA_NACK : Z;
  TWI_LOST_ARBIT : Z;
  TWI_NO_RELEVANT_INFO : Z;
  TWI_ILLEGAL_START_STOP : Z;
  case_labels_distinct :
    NoDup [TWI_MT_SLAW_ACK; TWI_START_SENT; TWI_MT_DATA_ACK;
           TWI_MR_SLAR_ACK; TWI_MR_DATA_ACK; TWI_MR_DATA_NACK;
           TWI_MR_SLAR_NACK; TWI_MT_SLAW_NACK; TWI_MT_DATA_NACK;
           TWI_LOST_ARBIT; TWI_REP_START_SENT; TWI_NO_RELEVANT_INFO;
           TWI_ILLEGAL_START_STOP]
}.

(** Modelled from the spec: the enumeration [TWIMode] of the absent header,
    with the values the source file uses (the slave modes are unimplemented
    and never assigned). *)
Inductive TWIMode :=
  | Ready
  | Initializing
  | RepeatedStartSent
  | MasterTransmitter
  | MasterReceiver.

#[global] Instance TWIMode_eq_dec : EqDecision TWIMode.
Proof. solve_decision. Defined.

(** [TWIInfoStruct]: mode, last error code and repeated-start flag. *)
Record TWIInfoStruct := mkInfo {
  mode : TWIMode;
  errorCode : Z;
  repStart : Z
}.

(** Modelled from the spec: the Bus Control Interface.  The macros
    [TWISendStart()], [TWISendStop()], [TWISendTransmit()], [TWISendACK()] and
    [TWISendNACK()] of the absent header each write the control register;
    [Load b] is a write of [b] to the data register [TWDR]; [Configure] is
    the register set-up done by [TWIInit]. *)
Inductive BusAction :=
  | Configure
  | Load (b : Z)
  | Start
  | Stop
  | Transmit
  | ACK
  | NACK.

#[global] Instance BusAction_eq_dec : EqDecision BusAction.
Proof. solve_decision. Defined.

(** The globals of the driver.  The indexes and lengths are C [int]s of the
    absent header, kept as unbounded integers. *)
Record State := mkState {
  TWIInfo : TWIInfoStruct;
  TWITransmitBuffer : list Z;
  TXBuffLen : Z;
  TXBuffIndex : Z;
  TWIReceiveBuffer : list Z;
  RXBuffLen : Z;
  RXBuffIndex : Z;
  TWDR : Z;
  bus : list BusAction
}.

(** ** Statements *)

Definition Stmt := State -> option State.

Definition seq (c1 c2 : Stmt) : Stmt :=
  fun s => match c1 s with Some s' => c2 s' | None => None end.

Notation "c1 ;; c2" := (seq c1 c2) (at level 100, right associativity).

Definition to_uint8 (x : Z) : Z := x mod 256.

(** [a[i]] as an rvalue and [a[i] = v], both undefined outside the array. *)
Definition array_get (a : list Z) (i : Z) : option Z :=
  if 0 <=? i then a !! Z.to_nat i else None.

Definition array_set (a : list Z) (i v : Z) : option (list Z) :=
  if (0 <=? i) && (i <? Z.of_nat (length a))
  then Some (<[Z.to_nat i := v]> a) else None.

(** Assignments to the globals. *)
Definition set_mode (m : TWIMode) : Stmt := fun s =>
  Some (mkState (mkInfo m (errorCode (TWIInfo s)) (repStart (TWIInfo s)))
          (TWITransmitBuffer s) (TXBuffLen s) (TXBuffIndex s)
          (TWIReceiveBuffer s) (RXBuffLen s) (RXBuffIndex s) (TWDR s) (bus s)).

Definition set_errorCode (e : Z) : Stmt := fun s =>
  Some (mkState (mkInfo (mode (TWIInfo s)) e (repStart (TWIInfo s)))
          (TWITransmitBuffer s) (TXBuffLen s) (TXBuffIndex s)
          (TWIReceiveBuffer s) (RXBuffLen s) (RXBuffIndex s) (TWDR s) (bus s)).

Definition set_repStart (r : Z) : Stmt := fun s =>
  Some (mkState (mkInfo (mode (TWIInfo s)) (errorCode (TWIInfo s)) r)
          (TWITransmitBuffer s) (TXBuffLen s) (TXBuffIndex s)
          (TWIReceiveBuffer s) (RXBuffLen s) (RXBuffIndex s) (TWDR s) (bus s)).

Definition set_TXBuffLen (n : Z) : Stmt := fun s =>
  Some (mkState (TWIInfo s) (TWITransmitBuffer s) n (TXBuffIndex s)
          (TWIReceiveBuffer s) (RXBuffLen s) (RXBuffIndex s) (TWDR s) (bus s)).

Definition set_TXBuffIndex (i : Z) : Stmt := fun s =>
  Some (mkState (TWIInfo s) (TWITransmitBuffer s) (TXBuffLen s) i
          (TWIReceiveBuffer s) (RXBuffLen s) (RXBuffIndex s) (TWDR s) (bus s)).

Definition set_RXBuffLen (n : Z) : Stmt := fun s =>
  Some (mkState (TWIInfo s) (TWITransmitBuffer s) (TXBuffLen s) (TXBuffIndex s)
          (TWIReceiveBuffer s) n (RXBuffIndex s) (TWDR s) (bus s)).

Definition set_RXBuffIndex (i : Z) : Stmt := fun s =>
  Some (mkState (TWIInfo s) (TWITransmitBuffer s) (TXBuffLen s) (TXBuffIndex s)
          (TWIReceiveBuffer s) (RXBuffLen s) i (TWDR s) (bus s)).

(** [TWITransmitBuffer[i] = v] *)
Definition store_TX (i v : Z) : Stmt := fun s =>
  match array_set (TWITransmitBuffer s) i v with
  | Some a =>
      Some (mkState (TWIInfo s) a (TXBuffLen s) (TXBuffIndex s)
              (TWIReceiveBuffer s) (RXBuffLen s) (RXBuffIndex s) (TWDR s) (bus s))
  | None => None
  end.

(** [TWIReceiveBuffer[i] = v] *)
Definition store_RX (i v : Z) : Stmt := fun s =>
  match array_set (TWIReceiveBuffer s) i v with
  | Some a =>
      Some (mkState (TWIInfo s) (TWITransmitBuffer s) (TXBuffLen s) (TXBuffIndex s)
              a (RXBuffLen s) (RXBuffIndex s) (TWDR s) (bus s))
  | None => None
  end.

(** One more action of the driver on the hardware. *)
Definition emit (a : BusAction) : Stmt := fun s =>
  Some (mkState (TWIInfo s) (TWITransmitBuffer s) (TXBuffLen s) (TXBuffIndex s)
          (TWIReceiveBuffer s) (RXBuffLen s) (RXBuffIndex s) (TWDR s)
          (bus s ++ [a])).

(** [TWDR = v], a write of the driver to the data register. *)
Definition write_TWDR (v : Z) : Stmt := fun s =>
  Some (mkState (TWIInfo s) (TWITransmitBuffer s) (TXBuffLen s) (TXBuffIndex s)
          (TWIReceiveBuffer s) (RXBuffLen s) (RXBuffIndex s) v
          (bus s ++ [Load v])).

Definition TWISendStart : Stmt := emit Start.
Definition TWISendStop : Stmt := emit Stop.
Definition TWISendTransmit : Stmt := emit Transmit.
Definition TWISendACK : Stmt := emit ACK.
Definition TWISendNACK : Stmt := emit NACK.

(** [TWDR = TWITransmitBuffer[TXBuffIndex++]] (lines 96 and 166). *)
Definition load_next_TX : Stmt := fun s =>
  match array_get (TWITransmitBuffer s) (TXBuffIndex s) with
  | Some b => (set_TXBuffIndex (TXBuffIndex s + 1) ;; write_TWDR b) s
  | None => None
  end.

(** [TWIReceiveBuffer[RXBuffIndex++] = TWDR] (lines 207 and 225). *)
Definition store_next_RX : Stmt := fun s =>
  (set_RXBuffIndex (RXBuffIndex s + 1) ;; store_RX (RXBuffIndex s) (TWDR s)) s.

Section Driver.
Context `{TWIlib_h}.

(** ** TWIInit (lines 24-35) *)
Definition TWIInit : Stmt :=
  set_mode Ready ;; set_errorCode 255 ;; set_repStart 0 ;; emit Configure.

(** ** isTWIReady (lines 41-51) *)
Definition isTWIReady (s : State) : Z :=
  if bool_decide (mode (TWIInfo s) = Ready)
     || bool_decide (mode (TWIInfo s) = RepeatedStartSent)
  then 1 else 0.

(** ** TWITransmitData (lines 72-111) *)

(** The copy loop of lines 83-86, [n] iterations left, at index [i];
    [data[i]] outside the caller's data is undefined. *)
Fixpoint copy_loop (data : list Z) (n : nat) (i : Z) : Stmt :=
  match n with
  | O => fun s => Some s
  | S n' => fun s =>
      match array_get data i with
      | Some b => (store_TX i b ;; copy_loop data n' (i + 1)) s
      | None => None
      end
  end.

(** The body of the function (lines 73-111), on the values that the
    [uint8_t] parameters [dataLen] and [repStart] hold. *)
Definition TWITransmitData_body (TXdata : list Z) (dataLen repStart' : Z)
    (s : State) : option (Z * State) :=
  if dataLen <=? TXMAXBUFLEN then
    if isTWIReady s =? 0 then Some (2, s)
    else
      match
        (set_repStart repStart' ;;
         copy_loop TXdata (Z.to_nat dataLen) 0 ;;
         set_TXBuffLen dataLen ;;
         set_TXBuffIndex 0 ;;
         (fun s1 =>
            if bool_decide (mode (TWIInfo s1) = RepeatedStartSent)
            then (set_mode Initializing ;; load_next_TX ;; TWISendTransmit) s1
            else (set_mode Initializing ;; TWISendStart) s1)) s
      with
      | Some s' => Some (0, s')
      | None => None
      end
  else Some (1, s).

(** The function as it is called (line 72): the arguments are converted to
    the [uint8_t] parameters, that is reduced modulo 256, before the body
    runs. *)
Definition TWITransmitData (TXdata : list Z) (dataLen repStart' : Z)
    : State -> option (Z * State) :=
  TWITransmitData_body TXdata (to_uint8 dataLen) (to_uint8 repStart').

(** ** TWIReadData (lines 131-152) *)

(** The body of the function (lines 132-152), on the values that the
    [uint8_t] parameters [TWIaddr], [bytesToRead] and [repStart] hold. *)
Definition TWIReadData_body (TWIaddr bytesToRead repStart' : Z)
    (s : State) : option (Z * State) :=
  if bytesToRead <=? RXMAXBUFLEN then
    match (set_RXBuffIndex 0 ;; set_RXBuffLen bytesToRead) s with
    | Some s1 =>
        let TXdata := [to_uint8 (Z.lor (Z.shiftl TWIaddr 1) 1)] in
        match TWITransmitData TXdata 1 repStart' s1 with
        | Some (r, s2) => if r =? 2 then Some (2, s2) else Some (0, s2)
        | None => None
        end
    | None => None
    end
  else Some (1, s).

(** The function as it is called (line 131), the arguments converted to the
    [uint8_t] parameters. *)
Definition TWIReadData (TWIaddr bytesToRead repStart' : Z)
    : State -> option (Z * State) :=
  TWIReadData_body (to_uint8 TWIaddr) (to_uint8 bytesToRead)
    (to_uint8 repStart').

(** ** ISR (TWI_vect) (lines 154-285) *)

(** Lines 164-182: the body shared by the labels [TWI_MT_SLAW_ACK] (by
    fall-through), [TWI_START_SENT] and [TWI_MT_DATA_ACK]. *)
Definition mt_data_ack : Stmt := fun s =>
  if TXBuffIndex s <? TXBuffLen s then
    (load_next_TX ;; set_errorCode TWI_NO_RELEVANT_INFO ;; TWISendTransmit) s
  else if negb (repStart (TWIInfo s) =? 0) then
    (set_errorCode 255 ;; TWISendStart) s
  else
    (set_mode Ready ;; set_errorCode 255 ;; TWISendStop) s.

(** Lines 191-201 and 209-219: acknowledge unless the next byte is the last. *)
Definition mr_reply : Stmt := fun s =>
  if RXBuffIndex s <? RXBuffLen s - 1 then
    (set_errorCode TWI_NO_RELEVANT_INFO ;; TWISendACK) s
  else
    (set_errorCode TWI_NO_RELEVANT_INFO ;; TWISendNACK) s.

(** Lines 227-238. *)
Definition mr_finish : Stmt := fun s =>
  if negb (repStart (TWIInfo s) =? 0) then
    (set_errorCode 255 ;; TWISendStart) s
  else
    (set_mode Ready ;; set_errorCode 255 ;; TWISendStop) s.

(** Lines 248-259; [TWI_STATUS] is the status the routine was entered with
    (the macro reads the status register again, which the hardware holds
    until the routine has answered). *)
Definition bus_error (TWI_STATUS : Z) : Stmt := fun s =>
  if negb (repStart (TWIInfo s) =? 0) then
    (set_errorCode TWI_STATUS ;; TWISendStart) s
  else
    (set_mode Ready ;; set_errorCode TWI_STATUS ;; TWISendStop) s.

(** The [switch] itself, the labels in the order of the source; a status
    that matches no label leaves the [switch] at once. *)
Definition ISR (TWI_STATUS : Z) : Stmt :=
  if TWI_STATUS =? TWI_MT_SLAW_ACK then
    set_mode MasterTransmitter ;; mt_data_ack
  else if (TWI_STATUS =? TWI_START_SENT) || (TWI_STATUS =? TWI_MT_DATA_ACK) then
    mt_data_ack
  else if TWI_STATUS =? TWI_MR_SLAR_ACK then
    set_mode MasterReceiver ;; mr_reply
  else if TWI_STATUS =? TWI_MR_DATA_ACK then
    store_next_RX ;; mr_reply
  else if TWI_STATUS =? TWI_MR_DATA_NACK then
    store_next_RX ;; mr_finish
  else if (TWI_STATUS =? TWI_MR_SLAR_NACK) || (TWI_STATUS =? TWI_MT_SLAW_NACK)
          || (TWI_STATUS =? TWI_MT_DATA_NACK) || (TWI_STATUS =? TWI_LOST_ARBIT) then
    bus_error TWI_STATUS
  else if TWI_STATUS =? TWI_REP_START_SENT then
    set_mode RepeatedStartSent
  else if TWI_STATUS =? TWI_NO_RELEVANT_INFO then
    fun s => Some s
  else if TWI_STATUS =? TWI_ILLEGAL_START_STOP then
    set_errorCode TWI_ILLEGAL_START_STOP ;; set_mode Ready ;; TWISendStop
  else
    fun s => Some s.

(** ** The hardware as the driver sees it *)

(** A bus event: the status code the interrupt fires with and, for the
    receive statuses, the byte the hardware has put in [TWDR]. *)
Record BusEvent := mkEvent {
  ev_status : Z;
  ev_data : option Z
}.

(** The hardware fills the data register (no action of the driver). *)
Definition hw_TWDR (d : option Z) : Stmt := fun s =>
  match d with
  | Some b =>
      Some (mkState (TWIInfo s) (TWITransmitBuffer s) (TXBuffLen s) (TXBuffIndex s)
              (TWIReceiveBuffer s) (RXBuffLen s) (RXBuffIndex s) b (bus s))
  | None => Some s
  end.

Definition deliver (e : BusEvent) : Stmt :=
  hw_TWDR (ev_data e) ;; ISR (ev_status e).

Fixpoint run (es : list BusEvent) : Stmt :=
  match es with
  | [] => fun s => Some s
  | e :: es' => deliver e ;; run es'
  end.

(** The statuses that share the body of lines 164-182. *)
Definition mt_status (st : Z) : Prop :=
  st = TWI_START_SENT \/ st = TWI_MT_SLAW_ACK \/ st = TWI_MT_DATA_ACK.

(** The statuses of a write of [n] bytes in which the slave acknowledges
    everything: start sent, address acknowledged, then one "data byte sent,
    ACK received" per byte. *)
Definition write_events (n : nat) : list BusEvent :=
  [mkEvent TWI_START_SENT None; mkEvent TWI_MT_SLAW_ACK None]
    ++ replicate n (mkEvent TWI_MT_DATA_ACK None).

(** The statuses of the data phase of a read: every byte but the last comes
    with "data received, ACK returned", the last one with "data received,
    NACK returned". *)
Fixpoint rx_events (bytes : list Z) : list BusEvent :=
  match bytes with
  | [] => []
  | [b] => [mkEvent TWI_MR_DATA_NACK (Some b)]
  | b :: rest => mkEvent TWI_MR_DATA_ACK (Some b) :: rx_events rest
  end.

(** The statuses of a whole read started in mode [m]: the start-sent status
    (none when the start condition is already held), the acknowledged
    address, then the data phase. *)
Definition read_events (m : TWIMode) (bytes : list Z) : list BusEvent :=
  (if bool_decide (m = RepeatedStartSent) then []
   else [mkEvent TWI_START_SENT None])
    ++ [mkEvent TWI_MR_SLAR_ACK None] ++ rx_events bytes.

(** The bytes written to the data register, in order. *)
Definition loads (acts : list BusAction) : list Z :=
  flat_map (fun a => match a with Load b => [b] | _ => [] end) acts.

(** The actions that put the bytes [l] on the bus one after the other. *)
Definition transmit_all (l : list Z) : list BusAction :=
  flat_map (fun b => [Load b; Transmit]) l.

(** Modelled from the spec: the absent header declares the two buffers with
    the capacities [TXMAXBUFLEN] and [RXMAXBUFLEN]. *)
Definition buffers_declared (s : State) : Prop :=
  Z.of_nat (length (TWITransmitBuffer s)) = TXMAXBUFLEN /\
  Z.of_nat (length (TWIReceiveBuffer s)) = RXMAXBUFLEN.

(** The globals at program start: C zero-initialises them. *)
Definition power_on : State :=
  mkState (mkInfo Ready 0 0)
    (replicate (Z.to_nat TXMAXBUFLEN) 0) 0 0
    (replicate (Z.to_nat RXMAXBUFLEN) 0) 0 0
    0 [].

(** The invariant of the data model: in both buffers the cursor does not
    pass the length. *)
Definition cursors_within (s : State) : Prop :=
  TXBuffIndex s <= TXBuffLen s /\ RXBuffIndex s <= RXBuffLen s.

(** The labels of the [switch] whose case does something (all but
    [TWI_NO_RELEVANT_INFO], whose case is a bare [break]). *)
Definition acting_labels : list Z :=
  [TWI_MT_SLAW_ACK; TWI_START_SENT; TWI_MT_DATA_ACK; TWI_MR_SLAR_ACK;
   TWI_MR_DATA_ACK; TWI_MR_DATA_NACK; TWI_MR_SLAR_NACK; TWI_MT_SLAW_NACK;
   TWI_MT_DATA_NACK; TWI_LOST_ARBIT; TWI_REP_START_SENT;
   TWI_ILLEGAL_START_STOP].

(** The statuses handled by lines 243-260. *)
Definition error_status (st : Z) : Prop :=
  st = TWI_MR_SLAR_NACK \/ st = TWI_MT_SLAW_NACK \/
  st = TWI_MT_DATA_NACK \/ st = TWI_LOST_ARBIT.

(** What keeps the reads of the transmit buffer inside the array: the
    buffers have their declared sizes, the transmit index is not negative
    and the transmit length is within the capacity. *)
Definition tx_safe (s : State) : Prop :=
  buffers_declared s /\ 0 <= TXBuffIndex s /\ TXBuffLen s <= TXMAXBUFLEN.

(** The statuses of a write of [n >= 1] bytes with repeated start in which
    the slave acknowledges everything: start sent, address acknowledged, one
    "data byte sent, ACK received" for each further byte, and the repeated
    start sent. *)
Definition chain_events (n : nat) : list BusEvent :=
  [mkEvent TWI_START_SENT None; mkEvent TWI_MT_SLAW_ACK None]
    ++ replicate (n - 1) (mkEvent TWI_MT_DATA_ACK None)
    ++ [mkEvent TWI_REP_START_SENT None].

End Driver.

(** ** A concrete header *)

(** The status codes of the ATmega TWI unit (master modes) and buffers of
    twenty bytes: the values at which the properties below are evaluated. *)
Definition atmega : TWIlib_h := {|
  TXMAXBUFLEN := 20;
  RXMAXBUFLEN := 20;
  TWI_START_SENT := 8;
  TWI_REP_START_SENT := 16;
  TWI_MT_SLAW_ACK := 24;
  TWI_MT_SLAW_NACK := 32;
  TWI_MT_DATA_ACK := 40;
  TWI_MT_DATA_NACK := 48;
  TWI_MR_SLAR_ACK := 64;
  TWI_MR_SLAR_NACK := 72;
  TWI_MR_DATA_ACK := 80;
  TWI_MR_DATA_NACK := 88;
  TWI_LOST_ARBIT := 56;
  TWI_NO_RELEVANT_INFO := 248;
  TWI_ILLEGAL_START_STOP := 0;
  case_labels_distinct :=
    bool_decide_unpack
      (NoDup [24; 8; 40; 64; 80; 88; 72; 32; 48; 56; 16; 248; 0]) I
|}.

(** The driver after [TWIInit] on the ATmega. *)
Definition atmega_idle : State :=
  mkState (mkInfo Ready 255 0) (replicate 20 0) 0 0 (replicate 20 0) 0 0 0
    [Configure].

(** A read of three bytes under way on the ATmega, one byte received. *)
Definition atmega_reading : State :=
  mkState (mkInfo MasterReceiver 248 0)
    (161 :: replicate 19 0) 1 1 (7 :: replicate 19 0) 3 1 7
    [Configure; Start; Load 161; Transmit; ACK; ACK].

(** A write of two bytes with repeated start on the ATmega, both bytes out. *)
Definition atmega_sending : State :=
  mkState (mkInfo MasterTransmitter 248 1)
    (160 :: 5 :: replicate 18 0) 2 2 (replicate 20 0) 0 0 5
    [Configure; Start; Load 160; Transmit; Load 5; Transmit].

(** The driver holding the bus after a repeated start on the ATmega. *)
Definition atmega_held : State :=
  mkState (mkInfo RepeatedStartSent 255 1)
    (160 :: 5 :: replicate 18 0) 2 2 (replicate 20 0) 0 0 5
    [Configure; Start; Load 160; Transmit; Load 5; Transmit; Start].

(** * Properties *)

(** A header with a transmit buffer of no byte, the case the comment of
    [TWIReadData] mentions (lines 120-121). *)
Definition no_tx_buffer : TWIlib_h := {|
  TXMAXBUFLEN := 0;
  RXMAXBUFLEN := 20;
  TWI_START_SENT := 8;
  TWI_REP_START_SENT := 16;
  TWI_MT_SLAW_ACK := 24;
  TWI_MT_SLAW_NACK := 32;
  TWI_MT_DATA_ACK := 40;
  TWI_MT_DATA_NACK := 48;
  TWI_MR_SLAR_ACK := 64;
  TWI_MR_SLAR_NACK := 72;
  TWI_MR_DATA_ACK := 80;
  TWI_MR_DATA_NACK := 88;
  TWI_LOST_ARBIT := 56;
  TWI_NO_RELEVANT_INFO := 248;
  TWI_ILLEGAL_START_STOP := 0;
  case_labels_distinct :=
    bool_decide_unpack
      (NoDup [24; 8; 40; 64; 80; 88; 72; 32; 48; 56; 16; 248; 0]) I
|}.

(** The idle driver under that header. *)
Definition no_tx_idle : State :=
  mkState (mkInfo Ready 255 0) [] 0 0 (replicate 20 0) 0 0 0 [Configure].

(** A write of two bytes requested from the idle driver on the ATmega. *)
Definition atmega_writing : State :=
  mkState (mkInfo Initializing 255 0)
    (160 :: 5 :: replicate 18 0) 2 0 (replicate 20 0) 0 0 0
    [Configure; Start].

(** A read on the ATmega whose receive buffer is full: the index has
    reached the end of the array. *)
Definition atmega_rx_full : State :=
  mkState (mkInfo MasterReceiver 248 0)
    (161 :: replicate 19 0) 1 1 (replicate 20 7) 20 20 7
    [Configure; Start; Load 161; Transmit].

Section Properties.
Context `{TWIlib_h}.

(** ** The dispatch of the [switch] *)

Ltac label_facts :=
  let HL := fresh "HL" in
  pose proof case_labels_distinct as HL;
  repeat (apply NoDup_cons in HL as [? HL]);
  repeat match goal with
         | Hn : _ ∉ _ :: _ |- _ => apply not_elem_of_cons in Hn as [? Hn]
         end;
  clear HL.

Ltac dispatch :=
  unfold ISR; label_facts;
  repeat match goal with
         | |- context [?a =? ?b] =>
             destruct (Z.eqb_spec a b); try congruence; cbn [orb]
         end;
  try reflexivity.

Lemma ISR_MT_SLAW_ACK :
  ISR TWI_MT_SLAW_ACK = (set_mode MasterTransmitter ;; mt_data_ack).
Proof. dispatch. Qed.

Lemma ISR_START_SENT : ISR TWI_START_SENT = mt_data_ack.
Proof. dispatch. Qed.

Lemma ISR_MT_DATA_ACK : ISR TWI_MT_DATA_ACK = mt_data_ack.
Proof. dispatch. Qed.

Lemma ISR_MR_SLAR_ACK :
  ISR TWI_MR_SLAR_ACK = (set_mode MasterReceiver ;; mr_reply).
Proof. dispatch. Qed.

Lemma ISR_MR_DATA_ACK : ISR TWI_MR_DATA_ACK = (store_next_RX ;; mr_reply).
Proof. dispatch. Qed.

Lemma ISR_MR_DATA_NACK : ISR TWI_MR_DATA_NACK = (store_next_RX ;; mr_finish).
Proof. dispatch. Qed.

Lemma ISR_MR_SLAR_NACK : ISR TWI_MR_SLAR_NACK = bus_error TWI_MR_SLAR_NACK.
Proof. dispatch. Qed.

Lemma ISR_MT_SLAW_NACK : ISR TWI_MT_SLAW_NACK = bus_error TWI_MT_SLAW_NACK.
Proof. dispatch. Qed.

Lemma ISR_MT_DATA_NACK : ISR TWI_MT_DATA_NACK = bus_error TWI_MT_DATA_NACK.
Proof. dispatch. Qed.

Lemma ISR_LOST_ARBIT : ISR TWI_LOST_ARBIT = bus_error TWI_LOST_ARBIT.
Proof. dispatch. Qed.

Lemma ISR_REP_START_SENT : ISR TWI_REP_START_SENT = set_mode RepeatedStartSent.
Proof. dispatch. Qed.

(** ** Symbolic execution of statements *)

Ltac exec :=
  unfold TWITransmitData_body, TWIReadData_body, TWIInit, isTWIReady,
    mt_data_ack, mr_reply, mr_finish, bus_error, deliver, hw_TWDR,
    load_next_TX, store_next_RX, TWISendStart, TWISendStop,
    TWISendTransmit, TWISendACK, TWISendNACK, seq, set_mode, set_errorCode,
    set_repStart, set_TXBuffLen, set_TXBuffIndex, set_RXBuffLen,
    set_RXBuffIndex, store_TX, store_RX, emit, write_TWDR in *;
  cbn [TWIInfo TWITransmitBuffer TXBuffLen TXBuffIndex TWIReceiveBuffer
       RXBuffLen RXBuffIndex TWDR bus mode errorCode repStart] in *.

(** ** The [uint8_t] parameters *)

Lemma to_uint8_id (x : Z) : 0 <= x < 256 -> to_uint8 x = x.
Proof. intros Hx. unfold to_uint8. apply Z.mod_small. exact Hx. Qed.

Lemma to_uint8_range (x : Z) : 0 <= to_uint8 x < 256.
Proof. unfold to_uint8. apply Z.mod_pos_bound. lia. Qed.

(** On arguments that are [uint8_t] values the conversion at the call does
    nothing. *)
Lemma TWITransmitData_u8 (data : list Z) (dataLen rep : Z) :
  0 <= dataLen < 256 -> 0 <= rep < 256 ->
  TWITransmitData data dataLen rep = TWITransmitData_body data dataLen rep.
Proof.
  intros Hn Hr. unfold TWITransmitData. rewrite !to_uint8_id by assumption.
  reflexivity.
Qed.

(** The flag is converted once: converting it before the call changes
    nothing. *)
Lemma TWITransmitData_flag (data : list Z) (dataLen rep : Z) :
  TWITransmitData data dataLen rep
    = TWITransmitData data dataLen (to_uint8 rep).
Proof.
  unfold TWITransmitData. rewrite (to_uint8_id (to_uint8 rep)); [reflexivity |].
  apply to_uint8_range.
Qed.

Lemma TWIReadData_u8 (TWIaddr bytesToRead rep : Z) :
  0 <= TWIaddr < 256 -> 0 <= bytesToRead < 256 -> 0 <= rep < 256 ->
  TWIReadData TWIaddr bytesToRead rep
    = TWIReadData_body TWIaddr bytesToRead rep.
Proof.
  intros Ha Hn Hr. unfold TWIReadData. rewrite !to_uint8_id by assumption.
  reflexivity.
Qed.

(** ** Rejected requests *)

(** C8, as the code has it.  A write whose length, a value of the
    [uint8_t] parameter (0..255), is above the capacity of the transmit
    buffer, and a read whose count, likewise in 0..255, is above the capacity
    of the receive buffer, return 1 (buffer overflow) and leave the whole
    driver state as it was. *)
Theorem C8_overflow_rejected (s : State) (TXdata : list Z)
    (dataLen TWIaddr bytesToRead rep : Z) :
  (0 <= dataLen < 256 -> TXMAXBUFLEN < dataLen ->
     TWITransmitData TXdata dataLen rep s = Some (1, s)) /\
  (0 <= bytesToRead < 256 -> RXMAXBUFLEN < bytesToRead ->
     TWIReadData TWIaddr bytesToRead rep s = Some (1, s)).
Proof.
  split; intros Hu8 Hlen.
  - unfold TWITransmitData, TWITransmitData_body.
    rewrite (to_uint8_id dataLen) by exact Hu8.
    destruct (Z.leb_spec dataLen TXMAXBUFLEN); [lia | reflexivity].
  - unfold TWIReadData, TWIReadData_body.
    rewrite (to_uint8_id bytesToRead) by exact Hu8.
    destruct (Z.leb_spec bytesToRead RXMAXBUFLEN); [lia | reflexivity].
Qed.

(** C1, as the code has it.  The lengths are values of the [uint8_t]
    parameters (0..255).  While the driver is not ready, a write that fits
    the transmit buffer returns 2 (bus busy) and changes nothing; a read
    that fits the receive buffer returns 2 (the transmit buffer holding at
    least the address byte) and leaves [TWIInfo], the transmit buffer with
    its length and index, the contents of the receive buffer, the data
    register and the bus untouched. *)
Theorem C1_busy_rejected (s : State) (TXdata : list Z)
    (dataLen TWIaddr bytesToRead rep : Z) :
  isTWIReady s = 0 ->
  (0 <= dataLen < 256 -> dataLen <= TXMAXBUFLEN ->
     TWITransmitData TXdata dataLen rep s = Some (2, s)) /\
  (0 <= bytesToRead < 256 -> bytesToRead <= RXMAXBUFLEN ->
   1 <= TXMAXBUFLEN ->
     exists s',
       TWIReadData TWIaddr bytesToRead rep s = Some (2, s') /\
       TWIInfo s' = TWIInfo s /\
       TWITransmitBuffer s' = TWITransmitBuffer s /\
       TXBuffLen s' = TXBuffLen s /\
       TXBuffIndex s' = TXBuffIndex s /\
       TWIReceiveBuffer s' = TWIReceiveBuffer s /\
       TWDR s' = TWDR s /\
       bus s' = bus s).
Proof.
  intros Hbusy. split.
  - intros Hu8 Hlen. unfold TWITransmitData, TWITransmitData_body.
    rewrite (to_uint8_id dataLen) by exact Hu8.
    destruct (Z.leb_spec dataLen TXMAXBUFLEN); [| lia].
    rewrite Hbusy. reflexivity.
  - intros Hu8 Hlen Hcap. unfold TWIReadData, TWIReadData_body.
    rewrite (to_uint8_id bytesToRead) by exact Hu8.
    destruct (Z.leb_spec bytesToRead RXMAXBUFLEN); [| lia].
    unfold TWITransmitData, TWITransmitData_body, seq, set_RXBuffIndex,
      set_RXBuffLen.
    change (to_uint8 1) with 1.
    destruct (Z.leb_spec 1 TXMAXBUFLEN); [| lia].
    unfold isTWIReady in *. cbn [TWIInfo] in *.
    destruct (bool_decide (mode (TWIInfo s) = Ready)
              || bool_decide (mode (TWIInfo s) = RepeatedStartSent));
      [discriminate |].
    cbn. eexists. split; [reflexivity |]. cbn. tauto.
Qed.

(** ** Single events *)

(** C7. Arbitration lost while no repeated start is requested: whatever the
    mode and the progress of the transfer, the routine records the status in
    [errorCode], sets the mode to [Ready] and requests a stop; nothing else
    changes. *)
Theorem C7_arbitration_lost (s : State) :
  repStart (TWIInfo s) = 0 ->
  ISR TWI_LOST_ARBIT s =
    Some (mkState (mkInfo Ready TWI_LOST_ARBIT 0)
            (TWITransmitBuffer s) (TXBuffLen s) (TXBuffIndex s)
            (TWIReceiveBuffer s) (RXBuffLen s) (RXBuffIndex s) (TWDR s)
            (bus s ++ [Stop])).
Proof.
  intros Hrep. rewrite ISR_LOST_ARBIT. unfold bus_error.
  rewrite Hrep. exec. rewrite Hrep. reflexivity.
Qed.

(** C5, as the code has it.  In every state the start-sent status runs
    the data-ACK handling and nothing before it (it is the same as the
    data-ACK status); the status "SLA+W sent, ACK received" sets the mode to
    [MasterTransmitter] and then runs the same handling; the
    repeated-start-sent status sets the mode to [RepeatedStartSent] and does
    nothing else.  While a byte is left to send, the start-sent status loads
    it and leaves the mode as it was; when none is left it ends the transfer
    as the data-ACK status does: stop and mode [Ready], or, with the
    repeated-start flag set, a new start and the mode as it was. *)
Theorem C5_start_sent (s : State) :
  ISR TWI_START_SENT s = ISR TWI_MT_DATA_ACK s /\
  ISR TWI_MT_SLAW_ACK s =
    ISR TWI_MT_DATA_ACK
      (mkState (mkInfo MasterTransmitter (errorCode (TWIInfo s))
                  (repStart (TWIInfo s)))
         (TWITransmitBuffer s) (TXBuffLen s) (TXBuffIndex s)
         (TWIReceiveBuffer s) (RXBuffLen s) (RXBuffIndex s) (TWDR s)
         (bus s)) /\
  ISR TWI_REP_START_SENT s =
    Some (mkState (mkInfo RepeatedStartSent (errorCode (TWIInfo s))
                     (repStart (TWIInfo s)))
            (TWITransmitBuffer s) (TXBuffLen s) (TXBuffIndex s)
            (TWIReceiveBuffer s) (RXBuffLen s) (RXBuffIndex s) (TWDR s)
            (bus s)) /\
  (forall b,
     TXBuffIndex s < TXBuffLen s ->
     array_get (TWITransmitBuffer s) (TXBuffIndex s) = Some b ->
     ISR TWI_START_SENT s =
       Some (mkState (mkInfo (mode (TWIInfo s)) TWI_NO_RELEVANT_INFO
                        (repStart (TWIInfo s)))
               (TWITransmitBuffer s) (TXBuffLen s) (TXBuffIndex s + 1)
               (TWIReceiveBuffer s) (RXBuffLen s) (RXBuffIndex s) b
               (bus s ++ [Load b] ++ [Transmit])) /\
     ISR TWI_MT_SLAW_ACK s =
       Some (mkState (mkInfo MasterTransmitter TWI_NO_RELEVANT_INFO
                        (repStart (TWIInfo s)))
               (TWITransmitBuffer s) (TXBuffLen s) (TXBuffIndex s + 1)
               (TWIReceiveBuffer s) (RXBuffLen s) (RXBuffIndex s) b
               (bus s ++ [Load b] ++ [Transmit]))) /\
  (TXBuffLen s <= TXBuffIndex s ->
     ISR TWI_START_SENT s =
       if repStart (TWIInfo s) =? 0 then
         Some (mkState (mkInfo Ready 255 (repStart (TWIInfo s)))
                 (TWITransmitBuffer s) (TXBuffLen s) (TXBuffIndex s)
                 (TWIReceiveBuffer s) (RXBuffLen s) (RXBuffIndex s) (TWDR s)
                 (bus s ++ [Stop]))
       else
         Some (mkState (mkInfo (mode (TWIInfo s)) 255 (repStart (TWIInfo s)))
                 (TWITransmitBuffer s) (TXBuffLen s) (TXBuffIndex s)
                 (TWIReceiveBuffer s) (RXBuffLen s) (RXBuffIndex s) (TWDR s)
                 (bus s ++ [Start]))).
Proof.
  rewrite ISR_START_SENT, ISR_MT_DATA_ACK, ISR_MT_SLAW_ACK, ISR_REP_START_SENT.
  split; [reflexivity |]. split; [reflexivity |]. split; [reflexivity |].
  split.
  - intros b Hlt Hget. apply Z.ltb_lt in Hlt. split.
    + unfold mt_data_ack. rewrite Hlt. exec. rewrite Hget.
      cbn. rewrite <- app_assoc. reflexivity.
    + exec. rewrite Hlt, Hget. cbn. rewrite <- app_assoc. reflexivity.
  - intros Hge. apply Z.ltb_ge in Hge. unfold mt_data_ack. rewrite Hge.
    destruct (repStart (TWIInfo s) =? 0); reflexivity.
Qed.

(** What one run of the interrupt routine can change. *)
Lemma ISR_effect (TWI_STATUS : Z) (s s' : State) :
  ISR TWI_STATUS s = Some s' ->
  TWITransmitBuffer s' = TWITransmitBuffer s /\
  TXBuffLen s' = TXBuffLen s /\
  RXBuffLen s' = RXBuffLen s /\
  repStart (TWIInfo s') = repStart (TWIInfo s) /\
  (TXBuffIndex s' = TXBuffIndex s
   \/ TXBuffIndex s' = TXBuffIndex s + 1 /\ TXBuffIndex s < TXBuffLen s) /\
  (RXBuffIndex s' = RXBuffIndex s /\ TWIReceiveBuffer s' = TWIReceiveBuffer s
   \/ RXBuffIndex s' = RXBuffIndex s + 1 /\
      TWIReceiveBuffer s' =
        <[Z.to_nat (RXBuffIndex s) := TWDR s]> (TWIReceiveBuffer s) /\
      (TWI_STATUS = TWI_MR_DATA_ACK \/ TWI_STATUS = TWI_MR_DATA_NACK)) /\
  (exists acts, bus s' = bus s ++ acts).
Proof.
  unfold ISR. intros Hs.
  repeat match type of Hs with
         | context [if ?a =? ?b then _ else _] => destruct (Z.eqb_spec a b)
         | context [if ?c then _ else _] => destruct c
         end;
    exec; unfold array_get, array_set in Hs;
    repeat match type of Hs with
           | context [if ?a <? ?b then _ else _] => destruct (Z.ltb_spec a b)
           | context [match ?c with _ => _ end] =>
               lazymatch c with
               | context [match _ with _ => _ end] => fail
               | _ => destruct c; try discriminate
               end
           end;
    injection Hs as <-; cbn;
    repeat split; auto;
    try (left; split; reflexivity);
    try (right; repeat split; auto; fail);
    try (rewrite <- ?app_assoc; eexists; reflexivity);
    try (eexists; symmetry; apply app_nil_r).
Qed.

(** The routine is defined at every status as long as the transmit length is
    within the transmit buffer and the receive index within the receive
    buffer: these are the only array accesses it makes. *)
Lemma ISR_defined (TWI_STATUS : Z) (s : State) :
  0 <= TXBuffIndex s ->
  TXBuffLen s <= Z.of_nat (length (TWITransmitBuffer s)) ->
  0 <= RXBuffIndex s < Z.of_nat (length (TWIReceiveBuffer s)) ->
  is_Some (ISR TWI_STATUS s).
Proof.
  intros Htx Hlen Hrx.
  assert (Hload : TXBuffIndex s < TXBuffLen s -> is_Some (load_next_TX s)).
  { intros Hlt. unfold load_next_TX, array_get.
    destruct (Z.leb_spec 0 (TXBuffIndex s)); [| lia].
    destruct (lookup_lt_is_Some_2 (TWITransmitBuffer s)
                (Z.to_nat (TXBuffIndex s))) as [b ->]; [lia |].
    eexists. reflexivity. }
  assert (Hstore : exists a,
             array_set (TWIReceiveBuffer s) (RXBuffIndex s) (TWDR s) = Some a).
  { unfold array_set.
    destruct (Z.leb_spec 0 (RXBuffIndex s)); [| lia].
    destruct (Z.ltb_spec (RXBuffIndex s)
                (Z.of_nat (length (TWIReceiveBuffer s)))); [| lia].
    eexists. reflexivity. }
  destruct Hstore as [a Ha].
  assert (Hmt : is_Some (mt_data_ack s)).
  { unfold mt_data_ack. destruct (Z.ltb_spec (TXBuffIndex s) (TXBuffLen s)).
    - destruct (Hload ltac:(assumption)) as [s1 Hs1].
      unfold seq at 1. rewrite Hs1. eexists. reflexivity.
    - destruct (negb (repStart (TWIInfo s) =? 0)); eexists; reflexivity. }
  unfold ISR.
  repeat match goal with
         | |- context [if ?c then _ else _] =>
             lazymatch c with
             | context [TWI_STATUS] => destruct c
             end
         end;
    try exact Hmt; try (eexists; reflexivity).
  - unfold seq at 1, set_mode at 1.
    unfold mt_data_ack in *. cbn [TXBuffIndex TXBuffLen TWIInfo repStart].
    destruct (Z.ltb_spec (TXBuffIndex s) (TXBuffLen s)).
    + unfold seq at 1, load_next_TX, array_get. cbn [TWITransmitBuffer TXBuffIndex].
      destruct (Z.leb_spec 0 (TXBuffIndex s)); [| lia].
      destruct (lookup_lt_is_Some_2 (TWITransmitBuffer s)
                  (Z.to_nat (TXBuffIndex s))) as [b ->]; [lia |].
      eexists. reflexivity.
    + destruct (negb (repStart (TWIInfo s) =? 0)); eexists; reflexivity.
  - unfold seq, set_mode, mr_reply.
    cbn [RXBuffIndex RXBuffLen].
    destruct (RXBuffIndex s <? RXBuffLen s - 1); eexists; reflexivity.
  - unfold seq at 1, store_next_RX, seq, set_RXBuffIndex, store_RX.
    cbn [TWIReceiveBuffer]. rewrite Ha. unfold mr_reply. cbn [RXBuffIndex RXBuffLen].
    destruct (RXBuffIndex s + 1 <? RXBuffLen s - 1); eexists; reflexivity.
  - unfold seq at 1, store_next_RX, seq, set_RXBuffIndex, store_RX.
    cbn [TWIReceiveBuffer]. rewrite Ha. unfold mr_finish. cbn [TWIInfo repStart].
    destruct (negb (repStart (TWIInfo s) =? 0)); eexists; reflexivity.
  - unfold bus_error.
    destruct (negb (repStart (TWIInfo s) =? 0)); eexists; reflexivity.
Qed.

(** C10. One run of the interrupt routine, whatever the status, leaves the
    contents and the length of the transmit buffer, the length of the receive
    buffer and the repeated-start flag as they were; each index stays or
    advances by one; the receive buffer changes at most at the position of
    its old index, where the byte of the data register is written; the bus
    actions are added after those already issued. *)
Theorem C10_ISR_frame (TWI_STATUS : Z) (s s' : State) :
  ISR TWI_STATUS s = Some s' ->
  TWITransmitBuffer s' = TWITransmitBuffer s /\
  TXBuffLen s' = TXBuffLen s /\
  RXBuffLen s' = RXBuffLen s /\
  repStart (TWIInfo s') = repStart (TWIInfo s) /\
  (TXBuffIndex s' = TXBuffIndex s \/ TXBuffIndex s' = TXBuffIndex s + 1) /\
  (RXBuffIndex s' = RXBuffIndex s /\ TWIReceiveBuffer s' = TWIReceiveBuffer s
   \/ RXBuffIndex s' = RXBuffIndex s + 1 /\
      TWIReceiveBuffer s' =
        <[Z.to_nat (RXBuffIndex s) := TWDR s]> (TWIReceiveBuffer s)) /\
  (exists acts, bus s' = bus s ++ acts).
Proof.
  intros Hs.
  destruct (ISR_effect _ _ _ Hs) as (Hb & Hl & Hrl & Hrep & Htx & Hrx & Hbus).
  repeat split; auto.
  - destruct Htx as [? | [? _]]; auto.
  - destruct Hrx as [? | (? & ? & _)]; auto.
Qed.

(** ** Starting a transfer *)

Lemma array_get_nat (a : list Z) (i : nat) :
  array_get a (Z.of_nat i) = a !! i.
Proof.
  unfold array_get. destruct (Z.leb_spec 0 (Z.of_nat i)); [| lia].
  rewrite Nat2Z.id. reflexivity.
Qed.

Lemma array_set_nat (a : list Z) (i : nat) (v : Z) :
  (i < length a)%nat ->
  array_set a (Z.of_nat i) v = Some (<[i := v]> a).
Proof.
  intros Hi. unfold array_set.
  destruct (Z.leb_spec 0 (Z.of_nat i)); [| lia].
  destruct (Z.ltb_spec (Z.of_nat i) (Z.of_nat (length a))); [| lia].
  rewrite Nat2Z.id. reflexivity.
Qed.

(** The copy loop overwrites the positions [i .. i+k-1] of the transmit
    buffer with the same positions of the caller's data. *)
Lemma copy_loop_spec (data : list Z) (k i : nat) (s : State) :
  (i + k <= length data)%nat ->
  (i + k <= length (TWITransmitBuffer s))%nat ->
  copy_loop data k (Z.of_nat i) s =
    Some (mkState (TWIInfo s)
            (take i (TWITransmitBuffer s) ++ take k (drop i data)
               ++ drop (i + k) (TWITransmitBuffer s))
            (TXBuffLen s) (TXBuffIndex s)
            (TWIReceiveBuffer s) (RXBuffLen s) (RXBuffIndex s) (TWDR s) (bus s)).
Proof.
  revert i s. induction k as [| k IH]; intros i s Hd Hb.
  - cbn [copy_loop]. rewrite take_0, app_nil_l, Nat.add_0_r, take_drop.
    destruct s; reflexivity.
  - cbn [copy_loop]. rewrite array_get_nat.
    destruct (lookup_lt_is_Some_2 data i) as [d Hdi]; [lia |].
    rewrite Hdi. unfold seq, store_TX.
    rewrite array_set_nat by lia.
    replace (Z.of_nat i + 1) with (Z.of_nat (S i)) by lia.
    rewrite IH by (cbn; rewrite ?length_insert; lia).
    cbn. f_equal. f_equal.
    rewrite (drop_S data d i Hdi). rewrite firstn_cons.
    rewrite drop_insert_lt by lia.
    rewrite (take_S_r (<[i:=d]> (TWITransmitBuffer s)) i d).
    + rewrite take_insert_ge by lia. rewrite <- app_assoc.
      replace (S (i + k)) with (i + S k)%nat by lia. reflexivity.
    + apply list_lookup_insert_eq. lia.
Qed.

Lemma isTWIReady_1 (s : State) :
  isTWIReady s = 1 <->
  mode (TWIInfo s) = Ready \/ mode (TWIInfo s) = RepeatedStartSent.
Proof.
  unfold isTWIReady. destruct (mode (TWIInfo s)); vm_compute;
    intuition congruence.
Qed.

(** An accepted [TWITransmitData]: the data are copied, then either the
    start condition is requested or, when a repeated start is being held,
    the first byte is put on the bus. *)
Lemma TWITransmitData_started (s : State) (data : list Z) (rep : Z) :
  Z.of_nat (length data) <= 255 ->
  0 <= rep < 256 ->
  isTWIReady s = 1 ->
  Z.of_nat (length data) <= TXMAXBUFLEN ->
  (length data <= length (TWITransmitBuffer s))%nat ->
  TWITransmitData data (Z.of_nat (length data)) rep s =
    let buf := data ++ drop (length data) (TWITransmitBuffer s) in
    if bool_decide (mode (TWIInfo s) = RepeatedStartSent) then
      match buf !! 0%nat with
      | Some b0 =>
          Some (0, mkState (mkInfo Initializing (errorCode (TWIInfo s)) rep)
                     buf (Z.of_nat (length data)) 1
                     (TWIReceiveBuffer s) (RXBuffLen s) (RXBuffIndex s) b0
                     (bus s ++ [Load b0] ++ [Transmit]))
      | None => None
      end
    else
      Some (0, mkState (mkInfo Initializing (errorCode (TWIInfo s)) rep)
                 buf (Z.of_nat (length data)) 0
                 (TWIReceiveBuffer s) (RXBuffLen s) (RXBuffIndex s) (TWDR s)
                 (bus s ++ [Start])).
Proof.
  intros Hu8 Hrep8 Hready Hcap Hbuf.
  rewrite TWITransmitData_u8 by lia. unfold TWITransmitData_body.
  destruct (Z.leb_spec (Z.of_nat (length data)) TXMAXBUFLEN); [| lia].
  rewrite Hready. cbn [Z.eqb].
  unfold seq at 1. unfold set_repStart at 1.
  unfold seq at 1. rewrite Nat2Z.id.
  rewrite (copy_loop_spec data (length data) 0) by (cbn; lia).
  rewrite take_0, drop_0, app_nil_l, Nat.add_0_l, firstn_all.
  unfold seq, set_TXBuffLen, set_TXBuffIndex, set_mode, load_next_TX,
    TWISendTransmit, TWISendStart, emit, write_TWDR, array_get.
  cbn [TWIInfo TWITransmitBuffer TXBuffLen TXBuffIndex TWIReceiveBuffer
       RXBuffLen RXBuffIndex TWDR bus mode errorCode repStart].
  change (Z.to_nat 0) with 0%nat. change (0 <=? 0) with true. cbv iota.
  destruct (bool_decide (mode (TWIInfo s) = RepeatedStartSent)).
  - destruct ((data ++ drop (length data) (TWITransmitBuffer s)) !! 0%nat);
      [| reflexivity].
    cbn. rewrite <- app_assoc. reflexivity.
  - reflexivity.
Qed.

(** ** A write, event by event *)

Lemma run_app (es1 es2 : list BusEvent) (s : State) :
  run (es1 ++ es2) s =
    match run es1 s with Some s' => run es2 s' | None => None end.
Proof.
  revert s. induction es1 as [| e es1 IH]; intros s; [reflexivity |].
  cbn [run app]. unfold seq. destruct (deliver e s); [apply IH | reflexivity].
Qed.

Lemma mt_stop (st : Z) (s : State) :
  mt_status st ->
  repStart (TWIInfo s) = 0 ->
  TXBuffLen s <= TXBuffIndex s ->
  ISR st s =
    Some (mkState (mkInfo Ready 255 0)
            (TWITransmitBuffer s) (TXBuffLen s) (TXBuffIndex s)
            (TWIReceiveBuffer s) (RXBuffLen s) (RXBuffIndex s) (TWDR s)
            (bus s ++ [Stop])).
Proof.
  intros Hst Hrep Hidx.
  assert (Hlt : (TXBuffIndex s <? TXBuffLen s) = false) by (apply Z.ltb_ge; lia).
  destruct Hst as [-> | [-> | ->]];
    rewrite ?ISR_START_SENT, ?ISR_MT_SLAW_ACK, ?ISR_MT_DATA_ACK;
    exec; rewrite Hlt, Hrep; reflexivity.
Qed.

Lemma mt_load (st : Z) (s : State) (i : nat) (b : Z) :
  mt_status st ->
  TXBuffIndex s = Z.of_nat i ->
  TWITransmitBuffer s !! i = Some b ->
  TXBuffIndex s < TXBuffLen s ->
  exists m,
    ISR st s =
      Some (mkState (mkInfo m TWI_NO_RELEVANT_INFO (repStart (TWIInfo s)))
              (TWITransmitBuffer s) (TXBuffLen s) (Z.of_nat (S i))
              (TWIReceiveBuffer s) (RXBuffLen s) (RXBuffIndex s) b
              (bus s ++ transmit_all [b])).
Proof.
  intros Hst Hi Hb Hidx. apply Z.ltb_lt in Hidx.
  replace (Z.of_nat (S i)) with (TXBuffIndex s + 1) by lia.
  destruct Hst as [-> | [-> | ->]];
    rewrite ?ISR_START_SENT, ?ISR_MT_SLAW_ACK, ?ISR_MT_DATA_ACK;
    exec; rewrite Hidx, Hi, array_get_nat, Hb; cbn;
    rewrite <- app_assoc; eexists; reflexivity.
Qed.

(** Any number of such statuses, the flag [repStart] being clear: the bytes
    left in the transmit buffer go out one per event, and every event after
    the last byte requests a stop. *)
Lemma mt_run (es : list BusEvent) (l1 l2 l3 : list Z) (s : State) :
  Forall (fun e => mt_status (ev_status e) /\ ev_data e = None) es ->
  repStart (TWIInfo s) = 0 ->
  TWITransmitBuffer s = l1 ++ l2 ++ l3 ->
  TXBuffIndex s = Z.of_nat (length l1) ->
  TXBuffLen s = Z.of_nat (length l1 + length l2) ->
  exists s',
    run es s = Some s' /\
    bus s' = bus s ++ transmit_all (take (length es) l2)
               ++ replicate (length es - length l2) Stop /\
    TWITransmitBuffer s' = TWITransmitBuffer s /\
    TXBuffLen s' = TXBuffLen s /\
    TWIReceiveBuffer s' = TWIReceiveBuffer s /\
    RXBuffLen s' = RXBuffLen s /\
    RXBuffIndex s' = RXBuffIndex s /\
    ((length l2 < length es)%nat -> TWIInfo s' = mkInfo Ready 255 0).
Proof.
  intros Hes. revert l1 l2 s.
  induction Hes as [| e es [Hst Hdata] _ IH]; intros l1 l2 s Hrep Hbuf Hidx Hlen.
  - exists s. cbn. rewrite !app_nil_r. repeat split; auto. lia.
  - cbn [run]. unfold seq, deliver, seq. rewrite Hdata. cbn [hw_TWDR].
    destruct l2 as [| b l2].
    + rewrite (mt_stop _ s Hst Hrep) by (rewrite Hidx, Hlen; cbn; lia).
      match goal with
      | |- context [run es ?s1] =>
          destruct (IH l1 [] s1) as (s' & Hrun & Hbus & ? & ? & ? & ? & ? & Hinfo);
            [reflexivity | exact Hbuf | exact Hidx | exact Hlen |]
      end.
      exists s'. split; [exact Hrun |]. rewrite Hbus.
      cbn [bus length] in *. rewrite !take_nil, Nat.sub_0_r in *.
      cbn. rewrite <- app_assoc.
      repeat split; auto.
      intros _. destruct es as [| e' es'].
      * cbn in Hrun. injection Hrun as <-. reflexivity.
      * apply Hinfo. cbn. lia.
    + destruct (mt_load _ s (length l1) b Hst Hidx) as [m ->].
      { rewrite Hbuf. apply list_lookup_middle. reflexivity. }
      { rewrite Hidx, Hlen. cbn [length]. lia. }
      match goal with
      | |- context [run es ?s1] =>
          destruct (IH (l1 ++ [b]) l2 s1)
            as (s' & Hrun & Hbus & ? & ? & ? & ? & ? & Hinfo)
      end.
      * exact Hrep.
      * cbn [TWITransmitBuffer]. rewrite Hbuf, <- app_assoc. reflexivity.
      * cbn [TXBuffIndex]. rewrite length_app. cbn. lia.
      * cbn [TXBuffLen]. rewrite Hlen, length_app. cbn. lia.
      * exists s'. split; [exact Hrun |]. rewrite Hbus.
        cbn [bus length] in *. rewrite firstn_cons.
        unfold transmit_all. cbn [flat_map Nat.sub].
        rewrite <- !app_assoc.
        repeat split; auto.
        intros Hlt. apply Hinfo. lia.
Qed.

Lemma write_events_mt (n : nat) :
  Forall (fun e => mt_status (ev_status e) /\ ev_data e = None)
    (write_events n).
Proof.
  unfold write_events, mt_status. cbn [app].
  constructor; [cbn; auto |]. constructor; [cbn; auto |].
  apply Forall_replicate. cbn. auto.
Qed.

Lemma loads_transmit_all (l : list Z) : loads (transmit_all l) = l.
Proof.
  induction l as [| b l IH]; [reflexivity |].
  change (transmit_all (b :: l)) with ([Load b; Transmit] ++ transmit_all l).
  unfold loads in *. rewrite flat_map_app, IH. reflexivity.
Qed.

Lemma loads_app (l1 l2 : list BusAction) :
  loads (l1 ++ l2) = loads l1 ++ loads l2.
Proof. unfold loads. apply flat_map_app. Qed.

Lemma loads_replicate_Stop (k : nat) : loads (replicate k Stop) = [].
Proof. induction k as [| k IH]; [reflexivity | exact IH]. Qed.

(** C2. A write of [n >= 1] bytes that fits the transmit buffer ([n] being
    a value of the [uint8_t] length parameter), without repeated start, is
    accepted; fed the start-sent status, the
    address-acknowledged status and [n] data-acknowledged statuses, the
    routine puts exactly the [n] bytes of the data on the bus, in order, each
    followed by a transmit request, then answers every further status with a
    stop request, and ends in mode [Ready] with [errorCode = 0xFF].  (When the
    write is chained onto a held repeated start, no start is requested and the
    first of the [n] bytes is put on the bus by [TWITransmitData] itself.) *)
Theorem C2_write_completes (s : State) (data : list Z) :
  isTWIReady s = 1 ->
  buffers_declared s ->
  (0 < length data)%nat ->
  Z.of_nat (length data) <= 255 ->
  Z.of_nat (length data) <= TXMAXBUFLEN ->
  exists s1 s2 acts,
    TWITransmitData data (Z.of_nat (length data)) 0 s = Some (0, s1) /\
    run (write_events (length data)) s1 = Some s2 /\
    mode (TWIInfo s2) = Ready /\
    errorCode (TWIInfo s2) = 255 /\
    bus s2 = bus s ++ acts /\
    acts =
      (if bool_decide (mode (TWIInfo s) = RepeatedStartSent)
       then [] else [Start])
      ++ transmit_all data
      ++ replicate
           (if bool_decide (mode (TWIInfo s) = RepeatedStartSent)
            then 3 else 2)%nat Stop /\
    loads acts = data /\
    last acts = Some Stop.
Proof.
  intros Hready [Htx _] Hpos Hu8 Hcap.
  assert (Hbuf : (length data <= length (TWITransmitBuffer s))%nat) by lia.
  rewrite (TWITransmitData_started s data 0 Hu8 ltac:(lia) Hready Hcap Hbuf).
  cbv zeta.
  pose proof (write_events_mt (length data)) as Hev.
  assert (Hn : length (write_events (length data)) = (length data + 2)%nat).
  { unfold write_events. rewrite length_app, length_replicate. cbn. lia. }
  destruct (bool_decide (mode (TWIInfo s) = RepeatedStartSent)).
  - destruct data as [| b0 tl]; [cbn in Hpos; lia |].
    cbn [app lookup list_lookup].
    match goal with
    | |- context [Some (0, ?s1)] =>
        destruct (mt_run _ [b0] tl (drop (length (b0 :: tl)) (TWITransmitBuffer s))
                    s1 Hev)
          as (s2 & Hrun & Hbus & _ & _ & _ & _ & _ & Hinfo);
          [reflexivity | reflexivity | reflexivity
          | cbn [TXBuffLen length]; lia |];
        exists s1, s2
    end.
    rewrite Hn in *. cbn [bus length] in *.
    rewrite take_ge in Hbus by lia.
    replace (S (length tl) + 2 - length tl)%nat with 3%nat in Hbus by lia.
    rewrite Hinfo by lia.
    eexists. repeat split; [exact Hrun | | |].
    + rewrite Hbus, <- !app_assoc. reflexivity.
    + cbn [app]. rewrite !loads_app, loads_replicate_Stop, app_nil_r.
      apply (loads_transmit_all (b0 :: tl)).
    + cbn [app]. change (replicate 3 Stop) with ([Stop; Stop] ++ [Stop]).
      rewrite !app_assoc. apply last_snoc.
  - match goal with
    | |- context [Some (0, ?s1)] =>
        destruct (mt_run _ [] data (drop (length data) (TWITransmitBuffer s))
                    s1 Hev)
          as (s2 & Hrun & Hbus & _ & _ & _ & _ & _ & Hinfo);
          [reflexivity | reflexivity | reflexivity | reflexivity |];
        exists s1, s2
    end.
    rewrite Hn in *. cbn [bus] in *.
    rewrite take_ge in Hbus by lia.
    replace (length data + 2 - length data)%nat with 2%nat in Hbus by lia.
    rewrite Hinfo by lia.
    eexists. repeat split; [exact Hrun | | |].
    + rewrite Hbus, <- !app_assoc. reflexivity.
    + rewrite !loads_app, loads_replicate_Stop, app_nil_r.
      apply loads_transmit_all.
    + change (replicate 2 Stop) with ([Stop] ++ [Stop]).
      rewrite !app_assoc. apply last_snoc.
Qed.

(** ** A read, event by event *)

Lemma mr_reply_ack (s : State) :
  RXBuffIndex s < RXBuffLen s - 1 ->
  mr_reply s =
    Some (mkState (mkInfo (mode (TWIInfo s)) TWI_NO_RELEVANT_INFO
                     (repStart (TWIInfo s)))
            (TWITransmitBuffer s) (TXBuffLen s) (TXBuffIndex s)
            (TWIReceiveBuffer s) (RXBuffLen s) (RXBuffIndex s) (TWDR s)
            (bus s ++ [ACK])).
Proof.
  intros Hlt. apply Z.ltb_lt in Hlt. unfold mr_reply. rewrite Hlt.
  reflexivity.
Qed.

Lemma mr_reply_nack (s : State) :
  RXBuffLen s - 1 <= RXBuffIndex s ->
  mr_reply s =
    Some (mkState (mkInfo (mode (TWIInfo s)) TWI_NO_RELEVANT_INFO
                     (repStart (TWIInfo s)))
            (TWITransmitBuffer s) (TXBuffLen s) (TXBuffIndex s)
            (TWIReceiveBuffer s) (RXBuffLen s) (RXBuffIndex s) (TWDR s)
            (bus s ++ [NACK])).
Proof.
  intros Hge. apply Z.ltb_ge in Hge. unfold mr_reply. rewrite Hge.
  reflexivity.
Qed.

Lemma mr_finish_stop (s : State) :
  repStart (TWIInfo s) = 0 ->
  mr_finish s =
    Some (mkState (mkInfo Ready 255 0)
            (TWITransmitBuffer s) (TXBuffLen s) (TXBuffIndex s)
            (TWIReceiveBuffer s) (RXBuffLen s) (RXBuffIndex s) (TWDR s)
            (bus s ++ [Stop])).
Proof.
  intros Hrep. unfold mr_finish. rewrite Hrep. exec. rewrite Hrep.
  reflexivity.
Qed.

(** The byte handed over by the hardware lands at the index, which advances. *)
Lemma receive_byte (b x : Z) (l1 l2 : list Z) (s : State) :
  TWIReceiveBuffer s = l1 ++ x :: l2 ->
  RXBuffIndex s = Z.of_nat (length l1) ->
  (hw_TWDR (Some b) ;; store_next_RX) s =
    Some (mkState (TWIInfo s)
            (TWITransmitBuffer s) (TXBuffLen s) (TXBuffIndex s)
            (l1 ++ b :: l2) (RXBuffLen s) (Z.of_nat (S (length l1))) b
            (bus s)).
Proof.
  intros Hbuf Hidx. exec. rewrite Hidx, Hbuf.
  rewrite array_set_nat by (rewrite length_app; cbn; lia).
  rewrite insert_app_r_alt by lia. rewrite Nat.sub_diag. cbn.
  do 3 f_equal. lia.
Qed.

Lemma deliver_MR_DATA_ACK (b x : Z) (l1 l2 : list Z) (s : State) :
  TWIReceiveBuffer s = l1 ++ x :: l2 ->
  RXBuffIndex s = Z.of_nat (length l1) ->
  deliver (mkEvent TWI_MR_DATA_ACK (Some b)) s =
    mr_reply (mkState (TWIInfo s)
                (TWITransmitBuffer s) (TXBuffLen s) (TXBuffIndex s)
                (l1 ++ b :: l2) (RXBuffLen s) (Z.of_nat (S (length l1))) b
                (bus s)).
Proof.
  intros Hbuf Hidx. unfold deliver. cbn [ev_status ev_data].
  rewrite ISR_MR_DATA_ACK.
  pose proof (receive_byte b x l1 l2 s Hbuf Hidx) as Hrx.
  unfold seq in *. destruct (hw_TWDR (Some b) s); [| discriminate].
  rewrite Hrx. reflexivity.
Qed.

Lemma deliver_MR_DATA_NACK (b x : Z) (l1 l2 : list Z) (s : State) :
  TWIReceiveBuffer s = l1 ++ x :: l2 ->
  RXBuffIndex s = Z.of_nat (length l1) ->
  deliver (mkEvent TWI_MR_DATA_NACK (Some b)) s =
    mr_finish (mkState (TWIInfo s)
                 (TWITransmitBuffer s) (TXBuffLen s) (TXBuffIndex s)
                 (l1 ++ b :: l2) (RXBuffLen s) (Z.of_nat (S (length l1))) b
                 (bus s)).
Proof.
  intros Hbuf Hidx. unfold deliver. cbn [ev_status ev_data].
  rewrite ISR_MR_DATA_NACK.
  pose proof (receive_byte b x l1 l2 s Hbuf Hidx) as Hrx.
  unfold seq in *. destruct (hw_TWDR (Some b) s); [| discriminate].
  rewrite Hrx. reflexivity.
Qed.

(** The data phase of a read, from the reply that precedes the byte at the
    index: every byte but the last is acknowledged, the last one is not, the
    bytes fill the receive buffer from the index on, and the transfer ends
    with a stop request in mode [Ready]. *)
Lemma rx_run (bs l1 l2 : list Z) (s : State) :
  bs <> [] ->
  repStart (TWIInfo s) = 0 ->
  TWIReceiveBuffer s = l1 ++ l2 ->
  RXBuffIndex s = Z.of_nat (length l1) ->
  RXBuffLen s = Z.of_nat (length l1 + length bs) ->
  (length bs <= length l2)%nat ->
  exists s0 s',
    mr_reply s = Some s0 /\
    run (rx_events bs) s0 = Some s' /\
    TWIInfo s' = mkInfo Ready 255 0 /\
    TWIReceiveBuffer s' = l1 ++ bs ++ drop (length bs) l2 /\
    RXBuffIndex s' = RXBuffLen s /\
    RXBuffLen s' = RXBuffLen s /\
    bus s' = bus s ++ replicate (length bs - 1) ACK ++ [NACK; Stop] /\
    TWITransmitBuffer s' = TWITransmitBuffer s /\
    TXBuffLen s' = TXBuffLen s /\
    TXBuffIndex s' = TXBuffIndex s.
Proof.
  revert l1 l2 s. induction bs as [| b bs IH]; [congruence |].
  intros l1 l2 s _ Hrep Hbuf Hidx Hlen Hroom.
  destruct l2 as [| x l2]; [cbn in Hroom; lia |].
  destruct bs as [| b' rest].
  - rewrite mr_reply_nack by (rewrite Hidx, Hlen; cbn; lia).
    eexists. eexists. split; [reflexivity |].
    cbn [rx_events run]. unfold seq.
    rewrite (deliver_MR_DATA_NACK b x l1 l2) by assumption.
    rewrite mr_finish_stop by exact Hrep.
    cbn [length] in Hlen.
    cbn. rewrite drop_0, <- app_assoc. repeat split; auto.
    cbn. lia.
  - rewrite mr_reply_ack by (rewrite Hidx, Hlen; cbn; lia).
    eexists.
    set (u := mkState (mkInfo (mode (TWIInfo s)) TWI_NO_RELEVANT_INFO
                         (repStart (TWIInfo s)))
                (TWITransmitBuffer s) (TXBuffLen s) (TXBuffIndex s)
                (l1 ++ b :: l2) (RXBuffLen s) (Z.of_nat (S (length l1))) b
                (bus s ++ [ACK])).
    destruct (IH (l1 ++ [b]) l2 u)
      as (u0 & s' & Hreply & Hrun & Hinfo & Hrx & Hi & Hl & Hbus & Htx);
      [congruence | exact Hrep
      | subst u; cbn; rewrite <- app_assoc; reflexivity
      | subst u; cbn; rewrite length_app; cbn; lia
      | subst u; cbn; rewrite Hlen, length_app; cbn; lia
      | cbn in Hroom |- *; lia |].
    exists s'. split; [reflexivity |].
    change (rx_events (b :: b' :: rest))
      with (mkEvent TWI_MR_DATA_ACK (Some b) :: rx_events (b' :: rest)).
    cbn [run]. unfold seq.
    rewrite (deliver_MR_DATA_ACK b x l1 l2) by assumption.
    cbn [TWIInfo TWITransmitBuffer TXBuffLen TXBuffIndex TWIReceiveBuffer
         RXBuffLen RXBuffIndex TWDR bus mode errorCode repStart].
    fold u. rewrite Hreply. split; [exact Hrun |].
    subst u. cbn in *. rewrite Hinfo, Hrx, Hi, Hl, Hbus.
    rewrite <- !app_assoc. cbn. rewrite Nat.sub_0_r. tauto.
Qed.

(** An accepted [TWIReadData]: the receive buffer is reset to [bytesToRead],
    and the address byte with the read bit is handed to the write path. *)
Lemma TWIReadData_started (s : State) (TWIaddr bytesToRead rep : Z) :
  0 <= TWIaddr < 256 -> 0 <= bytesToRead < 256 -> 0 <= rep < 256 ->
  isTWIReady s = 1 ->
  bytesToRead <= RXMAXBUFLEN ->
  1 <= TXMAXBUFLEN ->
  (1 <= length (TWITransmitBuffer s))%nat ->
  TWIReadData TWIaddr bytesToRead rep s =
    let sla := to_uint8 (Z.lor (Z.shiftl TWIaddr 1) 1) in
    let buf := sla :: drop 1 (TWITransmitBuffer s) in
    if bool_decide (mode (TWIInfo s) = RepeatedStartSent) then
      Some (0, mkState (mkInfo Initializing (errorCode (TWIInfo s)) rep)
                 buf 1 1 (TWIReceiveBuffer s) bytesToRead 0 sla
                 (bus s ++ [Load sla] ++ [Transmit]))
    else
      Some (0, mkState (mkInfo Initializing (errorCode (TWIInfo s)) rep)
                 buf 1 0 (TWIReceiveBuffer s) bytesToRead 0 (TWDR s)
                 (bus s ++ [Start])).
Proof.
  intros Ha8 Hn8 Hrep8 Hready Hn Hcap Hbuf.
  rewrite TWIReadData_u8 by lia. unfold TWIReadData_body.
  destruct (Z.leb_spec bytesToRead RXMAXBUFLEN); [| lia].
  unfold seq, set_RXBuffIndex, set_RXBuffLen.
  cbn [TWIInfo TWITransmitBuffer TXBuffLen TXBuffIndex TWIReceiveBuffer
       RXBuffLen RXBuffIndex TWDR bus].
  match goal with
  | |- context [TWITransmitData ?d 1 rep ?s1] =>
      pose proof (TWITransmitData_started s1 d rep) as Hstart
  end.
  cbn [length TWIInfo TWITransmitBuffer TXBuffLen TXBuffIndex
       TWIReceiveBuffer RXBuffLen RXBuffIndex TWDR bus] in Hstart.
  change (Z.of_nat 1) with 1 in Hstart.
  rewrite Hstart by (assumption || lia). clear Hstart. cbv zeta.
  cbn [app lookup list_lookup].
  destruct (bool_decide (mode (TWIInfo s) = RepeatedStartSent)); reflexivity.
Qed.


(** ** The address byte of a read *)

Lemma sla_r_7bit (a : Z) :
  0 <= a < 128 ->
  to_uint8 (Z.lor (Z.shiftl a 1) 1) = Z.lor (Z.shiftl a 1) 1.
Proof.
  intros Ha. unfold to_uint8.
  assert (Hlor : Z.lor (Z.shiftl a 1) 1 = 2 * a + 1).
  { rewrite Z.shiftl_mul_pow2 by lia. change (2 ^ 1) with 2.
    destruct a as [| p | p]; [reflexivity | | lia].
    rewrite Z.mul_comm. reflexivity. }
  rewrite Hlor. apply Z.mod_small. lia.
Qed.

(** C9. For a 7-bit address and a count that fits the receive buffer
    (count and flag being values of the [uint8_t] parameters),
    [TWIReadData] is the reset of the receive index and length followed by
    [TWITransmitData] on the one-byte array holding [(TWIaddr << 1) | 0x01],
    with length 1 and the caller's repeated-start flag; when that write is
    accepted, it is this byte that sits first in the transmit buffer. *)
Theorem C9_read_address_byte (s : State) (TWIaddr bytesToRead rep : Z) :
  0 <= TWIaddr < 128 ->
  0 <= bytesToRead < 256 ->
  0 <= rep < 256 ->
  bytesToRead <= RXMAXBUFLEN ->
  TWIReadData TWIaddr bytesToRead rep s =
    match
      TWITransmitData [Z.lor (Z.shiftl TWIaddr 1) 1] 1 rep
        (mkState (TWIInfo s) (TWITransmitBuffer s) (TXBuffLen s)
           (TXBuffIndex s) (TWIReceiveBuffer s) bytesToRead 0 (TWDR s)
           (bus s))
    with
    | Some (r, s2) => if r =? 2 then Some (2, s2) else Some (0, s2)
    | None => None
    end /\
  (isTWIReady s = 1 -> buffers_declared s -> 1 <= TXMAXBUFLEN ->
   exists s',
     TWIReadData TWIaddr bytesToRead rep s = Some (0, s') /\
     TWITransmitBuffer s' !! 0%nat = Some (Z.lor (Z.shiftl TWIaddr 1) 1) /\
     TXBuffLen s' = 1 /\
     repStart (TWIInfo s') = rep).
Proof.
  intros Haddr Hn8 Hrep8 Hn. split.
  - rewrite TWIReadData_u8 by lia. unfold TWIReadData_body.
    destruct (Z.leb_spec bytesToRead RXMAXBUFLEN); [| lia].
    rewrite (sla_r_7bit _ Haddr). reflexivity.
  - intros Hready [Htx _] Hcap.
    rewrite TWIReadData_started by (assumption || lia). cbv zeta.
    rewrite (sla_r_7bit _ Haddr).
    destruct (bool_decide (mode (TWIInfo s) = RepeatedStartSent));
      eexists; (split; [reflexivity |]); cbn; auto.
Qed.

(** ** Repeated start *)

(** C4. In a transaction started with the repeated-start flag set (the flag
    is stored in [TWIInfo.repStart] by [TWITransmitData] and never changed by
    the routine), the event that ends it -- a data-ACK-group status with
    nothing left to send, the byte received after NACK, or one of the four
    error statuses -- requests a start and no stop, and leaves the mode to
    the repeated-start-sent status, which sets it to [RepeatedStartSent].  A
    write or read request accepted in that mode (its arguments being values
    of the [uint8_t] parameters) requests no start: it puts
    the first byte of the transmit buffer on the bus and requests transmit. *)
Theorem C4_repeated_start (s t : State) (data : list Z)
    (TWIaddr bytesToRead rep : Z) :
  0 <= TWIaddr < 256 -> 0 <= bytesToRead < 256 -> 0 <= rep < 256 ->
  Z.of_nat (length data) <= 255 ->
  repStart (TWIInfo s) <> 0 ->
  mode (TWIInfo t) = RepeatedStartSent ->
  buffers_declared t ->
  1 <= TXMAXBUFLEN ->
  Z.of_nat (length data) <= TXMAXBUFLEN ->
  bytesToRead <= RXMAXBUFLEN ->
  (forall st, mt_status st -> TXBuffLen s <= TXBuffIndex s ->
     exists m,
       ISR st s =
         Some (mkState (mkInfo m 255 (repStart (TWIInfo s)))
                 (TWITransmitBuffer s) (TXBuffLen s) (TXBuffIndex s)
                 (TWIReceiveBuffer s) (RXBuffLen s) (RXBuffIndex s) (TWDR s)
                 (bus s ++ [Start])) /\
       (st <> TWI_MT_SLAW_ACK -> m = mode (TWIInfo s))) /\
  (0 <= RXBuffIndex s < Z.of_nat (length (TWIReceiveBuffer s)) ->
     ISR TWI_MR_DATA_NACK s =
       Some (mkState (mkInfo (mode (TWIInfo s)) 255 (repStart (TWIInfo s)))
               (TWITransmitBuffer s) (TXBuffLen s) (TXBuffIndex s)
               (<[Z.to_nat (RXBuffIndex s) := TWDR s]> (TWIReceiveBuffer s))
               (RXBuffLen s) (RXBuffIndex s + 1) (TWDR s)
               (bus s ++ [Start]))) /\
  (forall st,
     st = TWI_MR_SLAR_NACK \/ st = TWI_MT_SLAW_NACK \/
     st = TWI_MT_DATA_NACK \/ st = TWI_LOST_ARBIT ->
     ISR st s =
       Some (mkState (mkInfo (mode (TWIInfo s)) st (repStart (TWIInfo s)))
               (TWITransmitBuffer s) (TXBuffLen s) (TXBuffIndex s)
               (TWIReceiveBuffer s) (RXBuffLen s) (RXBuffIndex s) (TWDR s)
               (bus s ++ [Start]))) /\
  (forall u,
     ISR TWI_REP_START_SENT u =
       Some (mkState (mkInfo RepeatedStartSent (errorCode (TWIInfo u))
                        (repStart (TWIInfo u)))
               (TWITransmitBuffer u) (TXBuffLen u) (TXBuffIndex u)
               (TWIReceiveBuffer u) (RXBuffLen u) (RXBuffIndex u) (TWDR u)
               (bus u))) /\
  (exists b0,
     (data ++ drop (length data) (TWITransmitBuffer t)) !! 0%nat = Some b0 /\
     TWITransmitData data (Z.of_nat (length data)) rep t =
       Some (0, mkState (mkInfo Initializing (errorCode (TWIInfo t)) rep)
                  (data ++ drop (length data) (TWITransmitBuffer t))
                  (Z.of_nat (length data)) 1
                  (TWIReceiveBuffer t) (RXBuffLen t) (RXBuffIndex t) b0
                  (bus t ++ [Load b0; Transmit]))) /\
  (let sla := to_uint8 (Z.lor (Z.shiftl TWIaddr 1) 1) in
   TWIReadData TWIaddr bytesToRead rep t =
     Some (0, mkState (mkInfo Initializing (errorCode (TWIInfo t)) rep)
                (sla :: drop 1 (TWITransmitBuffer t)) 1 1
                (TWIReceiveBuffer t) bytesToRead 0 sla
                (bus t ++ [Load sla; Transmit]))).
Proof.
  intros Ha8 Hn8 Hrep8 Hu8 Hrep Hheld [Htx _] Hcap Hdata Hn.
  assert (Hflag : (repStart (TWIInfo s) =? 0) = false) by (apply Z.eqb_neq; lia).
  assert (Hready : isTWIReady t = 1) by (apply isTWIReady_1; auto).
  repeat split.
  - intros st Hst Hidx.
    assert (Hlt : (TXBuffIndex s <? TXBuffLen s) = false) by (apply Z.ltb_ge; lia).
    label_facts.
    destruct Hst as [-> | [-> | ->]];
      rewrite ?ISR_START_SENT, ?ISR_MT_SLAW_ACK, ?ISR_MT_DATA_ACK;
      exec; rewrite Hlt, Hflag; cbn; eexists; (split; [reflexivity |]);
      congruence.
  - intros Hidx. rewrite ISR_MR_DATA_NACK. exec. unfold array_set.
    destruct (Z.leb_spec 0 (RXBuffIndex s)); [| lia].
    destruct (Z.ltb_spec (RXBuffIndex s)
                (Z.of_nat (length (TWIReceiveBuffer s)))); [| lia].
    cbn. rewrite Hflag. reflexivity.
  - intros st Hst.
    destruct Hst as [-> | [-> | [-> | ->]]];
      rewrite ?ISR_MR_SLAR_NACK, ?ISR_MT_SLAW_NACK, ?ISR_MT_DATA_NACK,
        ?ISR_LOST_ARBIT;
      exec; rewrite Hflag; reflexivity.
  - intros u. rewrite ISR_REP_START_SENT. reflexivity.
  - rewrite TWITransmitData_started by (assumption || lia). cbv zeta.
    rewrite Hheld. cbn [bool_decide decide_rel].
    destruct (lookup_lt_is_Some_2
                (data ++ drop (length data) (TWITransmitBuffer t)) 0)
      as [b0 Hb0].
    { rewrite length_app, length_drop. lia. }
    exists b0. rewrite Hb0. split; reflexivity.
  - cbv zeta. rewrite TWIReadData_started by (assumption || lia).
    cbv zeta. rewrite Hheld. reflexivity.
Qed.

(** ** The indices and the lengths *)

Lemma copy_loop_frame (data : list Z) (k : nat) (i : Z) (s s' : State) :
  copy_loop data k i s = Some s' ->
  TWIInfo s' = TWIInfo s /\ TXBuffLen s' = TXBuffLen s /\
  TXBuffIndex s' = TXBuffIndex s /\ RXBuffLen s' = RXBuffLen s /\
  RXBuffIndex s' = RXBuffIndex s.
Proof.
  revert i s. induction k as [| k IH]; intros i s; cbn [copy_loop].
  - intros [= <-]. auto.
  - destruct (array_get data i); [| discriminate].
    unfold seq, store_TX.
    destruct (array_set (TWITransmitBuffer s) i z); [| discriminate].
    intros Hs. apply IH in Hs. exact Hs.
Qed.

(** The indices and lengths after the body of [TWITransmitData]: untouched
    when the request is rejected, otherwise the transmit length is [dataLen]
    and the transmit index is 0, or 1 when the first byte went out at once. *)
Lemma TWITransmitData_cursors (data : list Z) (dataLen rep r : Z)
    (s s' : State) :
  TWITransmitData_body data dataLen rep s = Some (r, s') ->
  RXBuffLen s' = RXBuffLen s /\ RXBuffIndex s' = RXBuffIndex s /\
  (TXBuffLen s' = TXBuffLen s /\ TXBuffIndex s' = TXBuffIndex s
   \/ TXBuffLen s' = dataLen /\
      (TXBuffIndex s' = 0
       \/ TXBuffIndex s' = 1 /\ mode (TWIInfo s) = RepeatedStartSent)).
Proof.
  unfold TWITransmitData_body.
  destruct (dataLen <=? TXMAXBUFLEN); [| intros [= <- <-]; auto].
  destruct (isTWIReady s =? 0); [intros [= <- <-]; auto |].
  unfold seq at 1. unfold set_repStart at 1. unfold seq at 1.
  destruct (copy_loop data (Z.to_nat dataLen) 0 _) as [s1 |] eqn:Hcopy;
    [| discriminate].
  apply copy_loop_frame in Hcopy.
  cbn [TWIInfo TXBuffLen TXBuffIndex RXBuffLen RXBuffIndex] in Hcopy.
  destruct Hcopy as (Hinfo & _ & _ & Hrl & Hri).
  exec. rewrite Hinfo. cbn [mode].
  unfold array_get. cbn [Z.leb].
  destruct (bool_decide_reflect (mode (TWIInfo s) = RepeatedStartSent)).
  - destruct (TWITransmitBuffer s1 !! Z.to_nat 0); [| discriminate].
    cbn. intros [= <- <-]. cbn. repeat split; auto.
  - cbn. intros [= <- <-]. cbn. repeat split; auto.
Qed.

(** C6, as the code has it.  With both indices within their lengths:
    the invariant holds after [TWIInit] at program start, and [TWIInit]
    keeps it; [TWITransmitData], its length a value of the [uint8_t]
    parameter, keeps it unless a write of no byte is chained onto a held
    repeated start;
    [TWIReadData] keeps it; the interrupt routine keeps it for the transmit
    buffer at every status, and for the receive buffer at every status
    provided that, at the two data-received statuses, the index is still
    below the length. *)
Theorem C6_cursors_within (s : State) :
  cursors_within s ->
  (exists s0, TWIInit power_on = Some s0 /\ cursors_within s0) /\
  (forall s', TWIInit s = Some s' -> cursors_within s') /\
  (forall data dataLen rep r s',
     0 <= dataLen < 256 ->
     (mode (TWIInfo s) = RepeatedStartSent -> 1 <= dataLen) ->
     TWITransmitData data dataLen rep s = Some (r, s') ->
     cursors_within s') /\
  (forall TWIaddr bytesToRead rep r s',
     0 <= bytesToRead ->
     TWIReadData TWIaddr bytesToRead rep s = Some (r, s') ->
     cursors_within s') /\
  (forall st s',
     ISR st s = Some s' ->
     (TXBuffIndex s' <= TXBuffLen s') /\
     ((st = TWI_MR_DATA_ACK \/ st = TWI_MR_DATA_NACK ->
       RXBuffIndex s < RXBuffLen s) ->
      cursors_within s')).
Proof.
  unfold cursors_within. intros [Htx Hrx]. split; [| split; [| split; [| split]]].
  - eexists. split; [reflexivity |]. cbn. lia.
  - intros s' [= <-]. cbn. lia.
  - intros data dataLen rep r s' Hpos Hheld Hw.
    unfold TWITransmitData in Hw. rewrite (to_uint8_id dataLen) in Hw by lia.
    apply TWITransmitData_cursors in Hw.
    destruct Hw as (Hrl & Hri & [[Hl Hi] | [Hl [Hi | [Hi Hm]]]]);
      try specialize (Hheld Hm); lia.
  - intros TWIaddr bytesToRead rep r s' Hpos.
    unfold TWIReadData, TWIReadData_body.
    pose proof (to_uint8_range bytesToRead) as Hcount.
    destruct (to_uint8 bytesToRead <=? RXMAXBUFLEN);
      [| intros [= <- <-]; lia].
    unfold seq, set_RXBuffIndex, set_RXBuffLen.
    destruct (TWITransmitData _ 1 _ _) as [[r0 s2] |] eqn:Hw; [| discriminate].
    unfold TWITransmitData in Hw. change (to_uint8 1) with 1 in Hw.
    apply TWITransmitData_cursors in Hw. cbn in Hw.
    destruct Hw as (Hrl & Hri & [[Hl Hi] | [Hl [Hi | [Hi Hm]]]]);
      destruct (r0 =? 2); intros [= <- <-]; lia.
  - intros st s' Hs. apply ISR_effect in Hs. lia.
Qed.

(** * Further properties of the driver *)

(** ** Statuses without a transfer step *)

Lemma ISR_ILLEGAL_START_STOP :
  ISR TWI_ILLEGAL_START_STOP =
    (set_errorCode TWI_ILLEGAL_START_STOP ;; set_mode Ready ;; TWISendStop).
Proof. dispatch. Qed.

(** X1. A status that is none of the labels with a body (the slave-mode
    statuses the file leaves unimplemented, and [TWI_NO_RELEVANT_INFO]
    itself) leaves every global as it was and issues no bus action: the
    [switch] has no [default]. *)
Theorem X1_unhandled_status_ignored (st : Z) (s : State) :
  st ∉ acting_labels ->
  ISR st s = Some s.
Proof.
  unfold acting_labels. intros Hst.
  repeat (apply not_elem_of_cons in Hst as [? Hst]).
  unfold ISR.
  repeat match goal with
         | |- context [st =? ?b] =>
             destruct (Z.eqb_spec st b); [congruence |]; cbn [orb]
         end;
    reflexivity.
Qed.

(** X2. An illegal start or stop condition aborts the transfer whether or
    not a repeated start was asked for: the status is recorded, the mode
    is [Ready] and a stop is requested; buffers, lengths, indices and the
    flag keep their values. *)
Theorem X2_illegal_start_stop (s : State) :
  ISR TWI_ILLEGAL_START_STOP s =
    Some (mkState (mkInfo Ready TWI_ILLEGAL_START_STOP (repStart (TWIInfo s)))
            (TWITransmitBuffer s) (TXBuffLen s) (TXBuffIndex s)
            (TWIReceiveBuffer s) (RXBuffLen s) (RXBuffIndex s) (TWDR s)
            (bus s ++ [Stop])) /\
  (forall s', ISR TWI_ILLEGAL_START_STOP s = Some s' -> isTWIReady s' = 1).
Proof.
  rewrite ISR_ILLEGAL_START_STOP. split; [reflexivity |].
  intros s' [= <-]. reflexivity.
Qed.

(** X3. A NACK on the address (write or read), a NACK on a data byte and a
    lost arbitration are handled alike: without repeated start the status
    becomes [errorCode], the mode [Ready], a stop is requested, and the
    driver accepts requests again; nothing else changes. *)
Theorem X3_bus_error_releases (st : Z) (s : State) :
  error_status st ->
  repStart (TWIInfo s) = 0 ->
  ISR st s =
    Some (mkState (mkInfo Ready st 0)
            (TWITransmitBuffer s) (TXBuffLen s) (TXBuffIndex s)
            (TWIReceiveBuffer s) (RXBuffLen s) (RXBuffIndex s) (TWDR s)
            (bus s ++ [Stop])) /\
  (forall s', ISR st s = Some s' -> isTWIReady s' = 1).
Proof.
  intros Hst Hrep.
  assert (Hisr : ISR st s = bus_error st s).
  { destruct Hst as [-> | [-> | [-> | ->]]];
      rewrite ?ISR_MR_SLAR_NACK, ?ISR_MT_SLAW_NACK, ?ISR_MT_DATA_NACK,
        ?ISR_LOST_ARBIT; reflexivity. }
  rewrite Hisr. unfold bus_error. rewrite Hrep. exec. rewrite Hrep.
  split; [reflexivity |]. intros s' [= <-]. reflexivity.
Qed.

(** ** The receive buffer *)

(** X4. The two data-received cases store the byte without looking at the
    length or the capacity: the routine stays inside the receive buffer
    exactly when the index is inside it.  With the index at the end of the
    array (or negative) the store is outside the array. *)
Theorem X4_receive_store_bounds (st : Z) (s : State) :
  st = TWI_MR_DATA_ACK \/ st = TWI_MR_DATA_NACK ->
  (is_Some (ISR st s) <->
   0 <= RXBuffIndex s < Z.of_nat (length (TWIReceiveBuffer s))).
Proof.
  intros Hst.
  assert (Hbody : exists k : Stmt,
             ISR st = (store_next_RX ;; k) /\ forall t, is_Some (k t)).
  { destruct Hst as [-> | ->].
    - exists mr_reply. split; [apply ISR_MR_DATA_ACK |].
      intros t. unfold mr_reply.
      destruct (RXBuffIndex t <? RXBuffLen t - 1); eexists; reflexivity.
    - exists mr_finish. split; [apply ISR_MR_DATA_NACK |].
      intros t. unfold mr_finish.
      destruct (negb (repStart (TWIInfo t) =? 0)); eexists; reflexivity. }
  destruct Hbody as (k & -> & Hk).
  unfold seq at 1, store_next_RX, seq, set_RXBuffIndex, store_RX, array_set.
  cbn [TWIReceiveBuffer RXBuffIndex TWDR].
  destruct (Z.leb_spec 0 (RXBuffIndex s));
    destruct (Z.ltb_spec (RXBuffIndex s)
                (Z.of_nat (length (TWIReceiveBuffer s)))); cbn [andb].
  - split; [lia | intros _; apply Hk].
  - split; [intros [? [=]] | lia].
  - split; [intros [? [=]] | lia].
  - split; [intros [? [=]] | lia].
Qed.

(** ** The address byte *)

(** X5. The address is shifted before it is stored in a byte, so its eighth
    bit is lost: an address and the same address with bit 7 set start the
    same read; and the byte sent always has the read bit set (it is odd). *)
Theorem X5_address_bit7_dropped (a bytesToRead rep : Z) (s : State) :
  0 <= a < 128 ->
  TWIReadData (a + 128) bytesToRead rep s = TWIReadData a bytesToRead rep s /\
  to_uint8 (Z.lor (Z.shiftl (a + 128) 1) 1) = 2 * a + 1.
Proof.
  intros Ha.
  assert (Hlor : forall x, 0 <= x -> Z.lor (Z.shiftl x 1) 1 = 2 * x + 1).
  { intros x Hx. rewrite Z.shiftl_mul_pow2 by lia. change (2 ^ 1) with 2.
    destruct x as [| p | p]; [reflexivity | | lia].
    rewrite Z.mul_comm. reflexivity. }
  assert (Hbyte : to_uint8 (Z.lor (Z.shiftl (a + 128) 1) 1)
                  = to_uint8 (Z.lor (Z.shiftl a 1) 1)).
  { unfold to_uint8. rewrite !Hlor by lia.
    replace (2 * (a + 128) + 1) with (2 * a + 1 + 1 * 256) by lia.
    apply Z.mod_add. lia. }
  split.
  - unfold TWIReadData.
    rewrite (to_uint8_id (a + 128)), (to_uint8_id a) by lia.
    unfold TWIReadData_body. rewrite Hbyte. reflexivity.
  - rewrite Hbyte. unfold to_uint8. rewrite Hlor by lia.
    apply Z.mod_small. lia.
Qed.

(** ** Requests *)

(** X6. An accepted write copies exactly [n] bytes ([n] and the flag being
    values of the [uint8_t] parameters): the transmit buffer
    then holds the first [n] bytes of the caller's data followed by what it
    held before from position [n] on (bytes of an earlier, longer transfer
    stay there); the length is [n], the flag is the caller's, the mode is
    [Initializing], and the error code of the previous transaction, the
    receive buffer, its length and its index are not touched. *)
Theorem X6_write_copies_prefix (s : State) (data : list Z) (n : nat)
    (rep : Z) :
  Z.of_nat n <= 255 ->
  0 <= rep < 256 ->
  isTWIReady s = 1 ->
  buffers_declared s ->
  1 <= TXMAXBUFLEN ->
  Z.of_nat n <= TXMAXBUFLEN ->
  (n <= length data)%nat ->
  exists s',
    TWITransmitData data (Z.of_nat n) rep s = Some (0, s') /\
    TWITransmitBuffer s' = take n data ++ drop n (TWITransmitBuffer s) /\
    length (TWITransmitBuffer s') = length (TWITransmitBuffer s) /\
    TXBuffLen s' = Z.of_nat n /\
    TWIInfo s' = mkInfo Initializing (errorCode (TWIInfo s)) rep /\
    TWIReceiveBuffer s' = TWIReceiveBuffer s /\
    RXBuffLen s' = RXBuffLen s /\
    RXBuffIndex s' = RXBuffIndex s.
Proof.
  intros Hu8 Hrep8 Hready [Htx _] Hcap1 Hcap Hdata.
  rewrite TWITransmitData_u8 by lia. unfold TWITransmitData_body.
  destruct (Z.leb_spec (Z.of_nat n) TXMAXBUFLEN); [| lia].
  rewrite Hready. cbn [Z.eqb].
  unfold seq at 1. unfold set_repStart at 1.
  unfold seq at 1. rewrite Nat2Z.id.
  rewrite (copy_loop_spec data n 0) by (cbn; lia).
  rewrite take_0, drop_0, app_nil_l, Nat.add_0_l.
  unfold seq, set_TXBuffLen, set_TXBuffIndex, set_mode, load_next_TX,
    TWISendTransmit, TWISendStart, emit, write_TWDR, array_get.
  cbn [TWIInfo TWITransmitBuffer TXBuffLen TXBuffIndex TWIReceiveBuffer
       RXBuffLen RXBuffIndex TWDR bus mode errorCode repStart].
  change (Z.to_nat 0) with 0%nat. change (0 <=? 0) with true. cbv iota.
  assert (Hlen : length (take n data ++ drop n (TWITransmitBuffer s))
                 = length (TWITransmitBuffer s)).
  { rewrite length_app, length_take, length_drop. lia. }
  destruct (bool_decide (mode (TWIInfo s) = RepeatedStartSent)).
  - destruct (lookup_lt_is_Some_2
                (take n data ++ drop n (TWITransmitBuffer s)) 0)
      as [b0 Hb0]; [lia |].
    rewrite Hb0. cbn. eexists. split; [reflexivity |]. cbn. auto 10.
  - eexists. split; [reflexivity |]. cbn. auto 10.
Qed.

Lemma copy_loop_overrun (data : list Z) (k i : nat) (s : State) :
  (i <= length data)%nat ->
  (length data < i + k)%nat ->
  copy_loop data k (Z.of_nat i) s = None.
Proof.
  revert i s. induction k as [| k IH]; intros i s Hi Hk; [lia |].
  cbn [copy_loop]. rewrite array_get_nat.
  destruct (data !! i) as [d |] eqn:Hd; [| reflexivity].
  apply lookup_lt_Some in Hd.
  unfold seq. destruct (store_TX (Z.of_nat i) d s) as [s1 |]; [| reflexivity].
  replace (Z.of_nat i + 1) with (Z.of_nat (S i)) by lia.
  apply IH; lia.
Qed.

(** X7. The length is the caller's word: when a ready driver is given a
    [dataLen] (a value of the [uint8_t] parameter) that fits the transmit
    buffer but is larger than the data, the
    copy loop reads past the end of the caller's array, which is outside the
    defined behaviour of the function (the comment of lines 57-58). *)
Theorem X7_write_reads_past_data (s : State) (data : list Z)
    (dataLen rep : Z) :
  isTWIReady s = 1 ->
  dataLen <= 255 ->
  dataLen <= TXMAXBUFLEN ->
  Z.of_nat (length data) < dataLen ->
  TWITransmitData data dataLen rep s = None.
Proof.
  intros Hready Hu8 Hcap Hlen. unfold TWITransmitData, TWITransmitData_body.
  rewrite (to_uint8_id dataLen) by lia.
  destruct (Z.leb_spec dataLen TXMAXBUFLEN); [| lia].
  rewrite Hready. cbn [Z.eqb].
  unfold seq at 1. unfold set_repStart at 1. unfold seq at 1.
  rewrite (copy_loop_overrun data (Z.to_nat dataLen) 0) by lia.
  reflexivity.
Qed.

Lemma TWITransmitData_accepted_mode (data : list Z) (dataLen rep : Z)
    (s s' : State) :
  TWITransmitData_body data dataLen rep s = Some (0, s') ->
  mode (TWIInfo s') = Initializing.
Proof.
  unfold TWITransmitData_body.
  destruct (dataLen <=? TXMAXBUFLEN); [| discriminate].
  destruct (isTWIReady s =? 0); [discriminate |].
  unfold seq at 1. unfold set_repStart at 1. unfold seq at 1.
  destruct (copy_loop data (Z.to_nat dataLen) 0 _) as [s1 |]; [| discriminate].
  exec. unfold array_get. cbn [Z.leb].
  destruct (bool_decide (mode (TWIInfo s1) = RepeatedStartSent)).
  - destruct (TWITransmitBuffer s1 !! Z.to_nat 0); [| discriminate].
    cbn. intros [= <-]. reflexivity.
  - cbn. intros [= <-]. reflexivity.
Qed.

(** X8. Once a request has been accepted (a write, or a read when the
    transmit buffer has room for the address byte), the driver is busy: until
    the interrupt routine has ended the transfer, any further write that fits
    (its length a value of the [uint8_t] parameter) is answered with 2 and
    changes nothing. *)
Theorem X8_second_request_busy (s s1 : State) (data : list Z)
    (dataLen TWIaddr bytesToRead rep : Z) :
  TWITransmitData data dataLen rep s = Some (0, s1) \/
  (1 <= TXMAXBUFLEN /\
   bytesToRead <= RXMAXBUFLEN /\
   TWIReadData TWIaddr bytesToRead rep s = Some (0, s1)) ->
  isTWIReady s1 = 0 /\
  (forall data2 dataLen2 rep2,
     0 <= dataLen2 < 256 ->
     dataLen2 <= TXMAXBUFLEN ->
     TWITransmitData data2 dataLen2 rep2 s1 = Some (2, s1)).
Proof.
  intros Hacc.
  assert (Hmode : mode (TWIInfo s1) = Initializing).
  { destruct Hacc as [Hw | (Hcap & Hn & Hr)].
    - eapply TWITransmitData_accepted_mode. exact Hw.
    - revert Hr. unfold TWIReadData, TWIReadData_body.
      destruct (to_uint8 bytesToRead <=? RXMAXBUFLEN); [| discriminate].
      unfold seq, set_RXBuffIndex, set_RXBuffLen.
      destruct (TWITransmitData _ 1 _ _) as [[r s2] |] eqn:Hw;
        [| discriminate].
      destruct (Z.eqb_spec r 2); [discriminate |]. intros [= <-].
      unfold TWITransmitData in Hw. change (to_uint8 1) with 1 in Hw.
      assert (r = 0) as ->.
      { revert Hw. unfold TWITransmitData_body.
        destruct (Z.leb_spec 1 TXMAXBUFLEN); [| lia].
        destruct (isTWIReady _ =? 0); [intros [= <- _]; lia |].
        destruct (_ ;; _) ; [intros [= <- _]; reflexivity | discriminate]. }
      eapply TWITransmitData_accepted_mode. exact Hw. }
  assert (Hbusy : isTWIReady s1 = 0).
  { unfold isTWIReady. rewrite Hmode. reflexivity. }
  split; [exact Hbusy |].
  intros data2 dataLen2 rep2 Hu8 Hfit.
  unfold TWITransmitData, TWITransmitData_body.
  rewrite (to_uint8_id dataLen2) by lia.
  destruct (Z.leb_spec dataLen2 TXMAXBUFLEN); [| lia].
  rewrite Hbusy. reflexivity.
Qed.

(** X9. [TWIInit] puts the driver back in the ready state from any state,
    a transfer under way included, without touching the buffers, the lengths
    or the indices; a write that fits (its length a value of the [uint8_t]
    parameter), requested next, is accepted and opens with a start
    condition. *)
Theorem X9_init_makes_ready (s : State) (data : list Z) (rep : Z) :
  Z.of_nat (length data) <= 255 ->
  Z.of_nat (length data) <= TXMAXBUFLEN ->
  (length data <= length (TWITransmitBuffer s))%nat ->
  exists s0 s1,
    TWIInit s = Some s0 /\
    isTWIReady s0 = 1 /\
    TWIInfo s0 = mkInfo Ready 255 0 /\
    TWITransmitBuffer s0 = TWITransmitBuffer s /\
    TXBuffLen s0 = TXBuffLen s /\ TXBuffIndex s0 = TXBuffIndex s /\
    TWIReceiveBuffer s0 = TWIReceiveBuffer s /\
    RXBuffLen s0 = RXBuffLen s /\ RXBuffIndex s0 = RXBuffIndex s /\
    TWITransmitData data (Z.of_nat (length data)) rep s0 = Some (0, s1) /\
    bus s1 = bus s ++ [Configure; Start].
Proof.
  intros Hu8 Hcap Hbuf. eexists. eexists.
  split; [reflexivity |]. cbn.
  repeat (split; [reflexivity |]).
  rewrite TWITransmitData_flag.
  match goal with
  | |- TWITransmitData _ _ _ ?s0 = _ /\ _ =>
      rewrite (TWITransmitData_started s0 data (to_uint8 rep) Hu8
                 (to_uint8_range rep)) by (auto; reflexivity)
  end.
  cbn. split; [reflexivity |]. cbn. rewrite <- app_assoc. reflexivity.
Qed.

(** X10. With a transmit buffer of no byte the address byte of a read
    cannot be queued: [TWIReadData] then returns 0 for every count (a value
    of the [uint8_t] parameter) that fits the receive buffer, although it has only reset the receive index and
    length; the mode is unchanged and nothing is requested on the bus (the
    case set aside by the comment of lines 120-121). *)
Theorem X10_read_without_tx_buffer (s : State) (TWIaddr bytesToRead rep : Z) :
  TXMAXBUFLEN < 1 ->
  0 <= bytesToRead < 256 ->
  bytesToRead <= RXMAXBUFLEN ->
  TWIReadData TWIaddr bytesToRead rep s =
    Some (0, mkState (TWIInfo s) (TWITransmitBuffer s) (TXBuffLen s)
               (TXBuffIndex s) (TWIReceiveBuffer s) bytesToRead 0 (TWDR s)
               (bus s)).
Proof.
  intros Hcap Hu8 Hn. unfold TWIReadData, TWIReadData_body.
  rewrite (to_uint8_id bytesToRead) by lia.
  destruct (Z.leb_spec bytesToRead RXMAXBUFLEN); [| lia].
  unfold seq, set_RXBuffIndex, set_RXBuffLen, TWITransmitData,
    TWITransmitData_body.
  change (to_uint8 1) with 1.
  destruct (Z.leb_spec 1 TXMAXBUFLEN); [lia |]. reflexivity.
Qed.

(** X11. A write of no byte from mode [Ready] without repeated start is
    accepted and requests a start; the start-sent status then finds nothing
    to send and requests the stop at once: no byte goes on the bus, and the
    driver is ready again with [errorCode = 0xFF]. *)
Theorem X11_empty_write (s : State) (data : list Z) :
  mode (TWIInfo s) = Ready ->
  0 <= TXMAXBUFLEN ->
  exists s1 s2,
    TWITransmitData data 0 0 s = Some (0, s1) /\
    ISR TWI_START_SENT s1 = Some s2 /\
    bus s2 = bus s ++ [Start; Stop] /\
    TWIInfo s2 = mkInfo Ready 255 0 /\
    TXBuffLen s2 = 0 /\ TXBuffIndex s2 = 0 /\
    TWITransmitBuffer s2 = TWITransmitBuffer s.
Proof.
  intros Hmode Hcap. unfold TWITransmitData, TWITransmitData_body.
  change (to_uint8 0) with 0.
  destruct (Z.leb_spec 0 TXMAXBUFLEN); [| lia].
  unfold isTWIReady. rewrite Hmode. cbn [bool_decide decide_rel orb Z.eqb].
  change (Z.to_nat 0) with 0%nat. cbn [copy_loop].
  rewrite ISR_START_SENT. exec. rewrite Hmode.
  cbn. eexists. eexists. split; [reflexivity |].
  cbn. split; [reflexivity |]. cbn. rewrite <- app_assoc.
  repeat split; reflexivity.
Qed.

(** ** The transmit buffer is never read outside the array *)

Lemma copy_loop_sizes (data : list Z) (k : nat) (i : Z) (s s' : State) :
  copy_loop data k i s = Some s' ->
  length (TWITransmitBuffer s') = length (TWITransmitBuffer s) /\
  TWIReceiveBuffer s' = TWIReceiveBuffer s.
Proof.
  revert i s. induction k as [| k IH]; intros i s; cbn [copy_loop].
  - intros [= <-]. auto.
  - destruct (array_get data i); [| discriminate].
    unfold seq, store_TX, array_set.
    destruct ((0 <=? i) && (i <? Z.of_nat (length (TWITransmitBuffer s))));
      [| discriminate].
    intros Hs. apply IH in Hs. cbn in Hs. rewrite length_insert in Hs.
    exact Hs.
Qed.

Lemma TWITransmitData_safe (data : list Z) (dataLen rep r : Z)
    (s s' : State) :
  tx_safe s ->
  TWITransmitData_body data dataLen rep s = Some (r, s') ->
  tx_safe s'.
Proof.
  unfold tx_safe, buffers_declared. intros ([Htx Hrx] & Hidx & Hlen).
  unfold TWITransmitData_body.
  destruct (Z.leb_spec dataLen TXMAXBUFLEN); [| intros [= <- <-]; auto].
  destruct (isTWIReady s =? 0); [intros [= <- <-]; auto |].
  unfold seq at 1. unfold set_repStart at 1. unfold seq at 1.
  destruct (copy_loop data (Z.to_nat dataLen) 0 _) as [s1 |] eqn:Hcopy;
    [| discriminate].
  apply copy_loop_sizes in Hcopy. cbn in Hcopy. destruct Hcopy as [Hl1 Hr1].
  exec. unfold array_get. cbn [Z.leb].
  destruct (bool_decide (mode (TWIInfo s1) = RepeatedStartSent)).
  - destruct (TWITransmitBuffer s1 !! Z.to_nat 0); [| discriminate].
    cbn. intros [= <- <-]. cbn. rewrite Hl1, Hr1. repeat split; auto; lia.
  - cbn. intros [= <- <-]. cbn. rewrite Hl1, Hr1. repeat split; auto; lia.
Qed.

(** X12. The transmit side stays inside its array.  "The buffers have
    their declared sizes, the transmit index is not negative, the transmit
    length is within the capacity" holds at program start and is kept by
    [TWIInit], by every request and by the routine at every status; while it
    holds, the routine makes no access outside an array at any status other
    than the two data-received ones. *)
Theorem X12_transmit_stays_in_bounds (s : State) :
  0 <= TXMAXBUFLEN -> 0 <= RXMAXBUFLEN ->
  tx_safe s ->
  tx_safe power_on /\
  (forall s', TWIInit s = Some s' -> tx_safe s') /\
  (forall data dataLen rep r s',
     TWITransmitData data dataLen rep s = Some (r, s') -> tx_safe s') /\
  (forall TWIaddr bytesToRead rep r s',
     TWIReadData TWIaddr bytesToRead rep s = Some (r, s') -> tx_safe s') /\
  (forall st s', ISR st s = Some s' -> tx_safe s') /\
  (forall st,
     st <> TWI_MR_DATA_ACK -> st <> TWI_MR_DATA_NACK -> is_Some (ISR st s)).
Proof.
  intros Htxcap Hrxcap Hsafe.
  split; [| split; [| split; [| split; [| split]]]].
  - unfold tx_safe, buffers_declared, power_on. cbn.
    rewrite !length_replicate. lia.
  - intros s' [= <-]. exact Hsafe.
  - intros data dataLen rep r s'. unfold TWITransmitData.
    apply TWITransmitData_safe. exact Hsafe.
  - intros TWIaddr bytesToRead rep r s'. unfold TWIReadData, TWIReadData_body.
    destruct (to_uint8 bytesToRead <=? RXMAXBUFLEN);
      [| intros [= <- <-]; exact Hsafe].
    unfold seq, set_RXBuffIndex, set_RXBuffLen.
    destruct (TWITransmitData _ 1 _ _) as [[r0 s2] |] eqn:Hw; [| discriminate].
    unfold TWITransmitData in Hw.
    apply TWITransmitData_safe in Hw; [| exact Hsafe].
    destruct (r0 =? 2); intros [= <- <-]; exact Hw.
  - intros st s' Hs. apply ISR_effect in Hs.
    destruct Hsafe as ([Htx Hrx] & Hidx & Hlen).
    destruct Hs as (Hb & Hl & _ & _ & Hi & Hr & _).
    unfold tx_safe, buffers_declared. rewrite Hb, Hl.
    repeat split; auto; try lia.
    destruct Hr as [[_ ->] | (_ & -> & _)]; rewrite ?length_insert; exact Hrx.
  - intros st Hack Hnack.
    destruct Hsafe as ([Htx Hrx] & Hidx & Hlen).
    assert (Hmt : forall m, is_Some (mt_data_ack
              (mkState (mkInfo m (errorCode (TWIInfo s)) (repStart (TWIInfo s)))
                 (TWITransmitBuffer s) (TXBuffLen s) (TXBuffIndex s)
                 (TWIReceiveBuffer s) (RXBuffLen s) (RXBuffIndex s) (TWDR s)
                 (bus s)))).
    { intros m. unfold mt_data_ack. cbn [TXBuffIndex TXBuffLen TWIInfo repStart].
      destruct (Z.ltb_spec (TXBuffIndex s) (TXBuffLen s)).
      - unfold seq at 1, load_next_TX, array_get.
        cbn [TWITransmitBuffer TXBuffIndex].
        destruct (Z.leb_spec 0 (TXBuffIndex s)); [| lia].
        destruct (lookup_lt_is_Some_2 (TWITransmitBuffer s)
                    (Z.to_nat (TXBuffIndex s))) as [b ->]; [lia |].
        eexists. reflexivity.
      - destruct (negb (repStart (TWIInfo s) =? 0)); eexists; reflexivity. }
    unfold ISR.
    repeat match goal with
           | |- context [if st =? ?b then _ else _] =>
               destruct (Z.eqb_spec st b); [try congruence |]
           | |- context [if ?c then _ else _] =>
               lazymatch c with
               | context [st] => destruct c
               end
           end;
      first
        [ unfold seq at 1, set_mode at 1; apply Hmt
        | specialize (Hmt (mode (TWIInfo s)));
          destruct s as [[? ? ?] ? ? ? ? ? ? ? ?]; exact Hmt
        | unfold seq, set_mode, mr_reply; cbn [RXBuffIndex RXBuffLen];
          destruct (RXBuffIndex s <? RXBuffLen s - 1); eexists; reflexivity
        | unfold bus_error;
          destruct (negb (repStart (TWIInfo s) =? 0)); eexists; reflexivity
        | eexists; reflexivity ].
Qed.

(** ** The routine over any sequence of events *)

Lemma ISR_tx_step (st : Z) (s s' : State) :
  ISR st s = Some s' ->
  0 <= TXBuffIndex s ->
  exists acts,
    bus s' = bus s ++ acts /\
    (TXBuffIndex s' = TXBuffIndex s /\ loads acts = []
     \/ exists b,
          TWITransmitBuffer s !! Z.to_nat (TXBuffIndex s) = Some b /\
          TXBuffIndex s' = TXBuffIndex s + 1 /\
          TXBuffIndex s < TXBuffLen s /\
          loads acts = [b]).
Proof.
  unfold ISR. intros Hs Hidx.
  repeat match type of Hs with
         | context [if ?c then _ else _] => destruct c
         end;
    exec; unfold array_get, array_set in Hs;
    repeat match type of Hs with
           | context [if 0 <=? ?a then _ else _] =>
               destruct (Z.leb_spec 0 a); [| lia]
           | context [if ?a <? ?b then _ else _] => destruct (Z.ltb_spec a b)
           | context [match ?c with _ => _ end] =>
               lazymatch c with
               | context [match _ with _ => _ end] => fail
               | _ => destruct c eqn:?; try discriminate
               end
           end;
    injection Hs as <-; cbn;
    first
      [ exists []; split; [symmetry; apply app_nil_r | left; split; reflexivity]
      | eexists; split; [rewrite <- ?app_assoc; reflexivity |];
        first [ left; split; reflexivity
              | right; eexists; repeat split; eauto ] ].
Qed.

(** X13. Whatever the sequence of statuses, the routine sends the queued
    bytes and only those: between two states of a run the bytes written to
    the data register are exactly the bytes of the transmit buffer from the
    old index up to the new one, in order; the index never moves back and
    never passes the length it was below; buffer, length and repeated-start
    flag are as queued. *)
Theorem X13_run_sends_queued_bytes (es : list BusEvent) (s s' : State) :
  run es s = Some s' ->
  0 <= TXBuffIndex s ->
  exists acts,
    bus s' = bus s ++ acts /\
    loads acts =
      take (Z.to_nat (TXBuffIndex s' - TXBuffIndex s))
        (drop (Z.to_nat (TXBuffIndex s)) (TWITransmitBuffer s)) /\
    TXBuffIndex s <= TXBuffIndex s' /\
    (TXBuffIndex s <= TXBuffLen s -> TXBuffIndex s' <= TXBuffLen s) /\
    TWITransmitBuffer s' = TWITransmitBuffer s /\
    TXBuffLen s' = TXBuffLen s /\
    repStart (TWIInfo s') = repStart (TWIInfo s).
Proof.
  revert s. induction es as [| e es IH]; intros s Hrun Hidx.
  - injection Hrun as <-. exists []. rewrite app_nil_r, Z.sub_diag.
    repeat split; auto; lia.
  - cbn [run] in Hrun. unfold seq, deliver, seq in Hrun.
    destruct (hw_TWDR (ev_data e) s) as [t |] eqn:Hhw; [| discriminate].
    assert (Ht : TWIInfo t = TWIInfo s /\
                 TWITransmitBuffer t = TWITransmitBuffer s /\
                 TXBuffLen t = TXBuffLen s /\ TXBuffIndex t = TXBuffIndex s /\
                 bus t = bus s).
    { unfold hw_TWDR in Hhw. destruct (ev_data e); injection Hhw as <-; auto. }
    destruct Ht as (Hti & Htb & Htl & Htx & Htbus).
    destruct (ISR (ev_status e) t) as [u |] eqn:Hisr; [| discriminate].
    pose proof (ISR_effect _ _ _ Hisr) as (Hb & Hl & _ & Hrep & _).
    destruct (ISR_tx_step _ _ _ Hisr ltac:(lia)) as (a1 & Hbus1 & Hstep).
    assert (Hu : 0 <= TXBuffIndex u) by (destruct Hstep as [[? _] | (? & _ & ? & _)]; lia).
    destruct (IH u Hrun Hu) as (a2 & Hbus2 & Hloads & Hmono & Hbound & Hb2 & Hl2 & Hrep2).
    exists (a1 ++ a2).
    rewrite Hbus2, Hbus1, Htbus, Hb2, Hb, Htb, Hl2, Hl, Htl, Hrep2, Hrep, Hti,
      loads_app, Hloads, Hb, Htb, <- app_assoc.
    destruct Hstep as [[Hsame Hno] | (b & Hlook & Hnext & Hlt & Hone)].
    + rewrite Hno, Hsame, Htx in *. repeat split; auto; lia.
    + rewrite Hone, Htb, Htx in *. rewrite Hnext in *.
      repeat split; auto; try lia.
      replace (Z.to_nat (TXBuffIndex s' - TXBuffIndex s))
        with (S (Z.to_nat (TXBuffIndex s' - (TXBuffIndex s + 1)))) by lia.
      rewrite (drop_S _ b _ Hlook). rewrite firstn_cons.
      replace (Z.to_nat (TXBuffIndex s + 1))
        with (S (Z.to_nat (TXBuffIndex s))) by lia.
      reflexivity.
Qed.

(** X14. Whatever the sequence of statuses, the routine does not touch
    what is already received: the receive buffer keeps its size and its
    contents below the index the run started with, the index never moves
    back, and the length asked for is unchanged. *)
Theorem X14_run_keeps_received_bytes (es : list BusEvent) (s s' : State) :
  run es s = Some s' ->
  0 <= RXBuffIndex s ->
  length (TWIReceiveBuffer s') = length (TWIReceiveBuffer s) /\
  take (Z.to_nat (RXBuffIndex s)) (TWIReceiveBuffer s')
    = take (Z.to_nat (RXBuffIndex s)) (TWIReceiveBuffer s) /\
  RXBuffIndex s <= RXBuffIndex s' /\
  RXBuffLen s' = RXBuffLen s.
Proof.
  revert s. induction es as [| e es IH]; intros s Hrun Hidx.
  - injection Hrun as <-. repeat split; auto; lia.
  - cbn [run] in Hrun. unfold seq, deliver, seq in Hrun.
    destruct (hw_TWDR (ev_data e) s) as [t |] eqn:Hhw; [| discriminate].
    assert (Ht : TWIReceiveBuffer t = TWIReceiveBuffer s /\
                 RXBuffLen t = RXBuffLen s /\ RXBuffIndex t = RXBuffIndex s).
    { unfold hw_TWDR in Hhw. destruct (ev_data e); injection Hhw as <-; auto. }
    destruct Ht as (Htb & Htl & Hti).
    destruct (ISR (ev_status e) t) as [u |] eqn:Hisr; [| discriminate].
    pose proof (ISR_effect _ _ _ Hisr) as (_ & _ & Hl & _ & _ & Hrx & _).
    assert (Hu : 0 <= RXBuffIndex u /\ RXBuffIndex t <= RXBuffIndex u /\
                 length (TWIReceiveBuffer u) = length (TWIReceiveBuffer t) /\
                 take (Z.to_nat (RXBuffIndex t)) (TWIReceiveBuffer u)
                   = take (Z.to_nat (RXBuffIndex t)) (TWIReceiveBuffer t)).
    { destruct Hrx as [[-> ->] | (-> & -> & _)].
      - repeat split; auto; lia.
      - rewrite length_insert, take_insert_ge by lia. repeat split; auto; lia. }
    destruct Hu as (Hu0 & Hmono1 & Hlen1 & Htake1).
    destruct (IH u Hrun Hu0) as (Hlen2 & Htake2 & Hmono2 & Hl2).
    rewrite Hlen2, Hlen1, Htb, Hl2, Hl, Htl.
    repeat split; auto; try lia.
    rewrite <- Hti, <- Htb, <- Htake1.
    apply (f_equal (take (Z.to_nat (RXBuffIndex t)))) in Htake2.
    rewrite !take_take in Htake2.
    rewrite !Nat.min_l in Htake2 by lia. exact Htake2.
Qed.

(** ** Whole transfers *)

(** X15. A write to a slave that does not answer: from mode [Ready], a
    write of at least one byte (the length a value of the [uint8_t]
    parameter) without repeated start sends the first byte after the start; when the address is not acknowledged the routine
    requests a stop, records the status in [errorCode], and the driver is
    ready again, the transmit index showing that one byte went out. *)
Theorem X15_address_nack_aborts_write (s : State) (b0 : Z) (tl : list Z) :
  mode (TWIInfo s) = Ready ->
  buffers_declared s ->
  Z.of_nat (length (b0 :: tl)) <= 255 ->
  Z.of_nat (length (b0 :: tl)) <= TXMAXBUFLEN ->
  exists s1 s2,
    TWITransmitData (b0 :: tl) (Z.of_nat (length (b0 :: tl))) 0 s
      = Some (0, s1) /\
    run [mkEvent TWI_START_SENT None; mkEvent TWI_MT_SLAW_NACK None] s1
      = Some s2 /\
    TWIInfo s2 = mkInfo Ready TWI_MT_SLAW_NACK 0 /\
    isTWIReady s2 = 1 /\
    TXBuffIndex s2 = 1 /\
    bus s2 = bus s ++ [Start; Load b0; Transmit; Stop].
Proof.
  intros Hmode [Htx _] Hu8 Hcap.
  assert (Hready : isTWIReady s = 1) by (apply isTWIReady_1; auto).
  rewrite (TWITransmitData_started s (b0 :: tl) 0 Hu8 ltac:(lia) Hready Hcap)
    by lia.
  cbv zeta. rewrite Hmode. cbn [bool_decide decide_rel].
  eexists. eexists. split; [reflexivity |].
  cbn [run]. unfold seq at 1. unfold deliver at 1. unfold seq at 1.
  cbn [ev_data ev_status hw_TWDR].
  match goal with
  | |- context [ISR TWI_START_SENT ?s1] =>
      destruct (mt_load TWI_START_SENT s1 0 b0) as [m ->];
        [left; reflexivity | reflexivity | reflexivity
        | cbn [TXBuffIndex TXBuffLen length]; lia |]
  end.
  unfold seq at 1. unfold deliver at 1. unfold seq at 1.
  cbn [ev_data ev_status hw_TWDR].
  rewrite ISR_MT_SLAW_NACK. unfold bus_error. exec. cbn.
  rewrite <- !app_assoc. repeat split; reflexivity.
Qed.

Lemma mt_start (st : Z) (s : State) :
  mt_status st ->
  repStart (TWIInfo s) <> 0 ->
  TXBuffLen s <= TXBuffIndex s ->
  exists m,
    ISR st s =
      Some (mkState (mkInfo m 255 (repStart (TWIInfo s)))
              (TWITransmitBuffer s) (TXBuffLen s) (TXBuffIndex s)
              (TWIReceiveBuffer s) (RXBuffLen s) (RXBuffIndex s) (TWDR s)
              (bus s ++ [Start])).
Proof.
  intros Hst Hrep Hidx.
  assert (Hlt : (TXBuffIndex s <? TXBuffLen s) = false) by (apply Z.ltb_ge; lia).
  assert (Hflag : (repStart (TWIInfo s) =? 0) = false) by (apply Z.eqb_neq; lia).
  destruct Hst as [-> | [-> | ->]];
    rewrite ?ISR_START_SENT, ?ISR_MT_SLAW_ACK, ?ISR_MT_DATA_ACK;
    exec; rewrite Hlt, Hflag; cbn; eexists; reflexivity.
Qed.

(** With the flag [repStart] set: the bytes left go out one per event, and
    the event after the last byte requests a start. *)
Lemma mt_run_chain (es : list BusEvent) (l1 l2 l3 : list Z) (s : State) :
  Forall (fun e => mt_status (ev_status e) /\ ev_data e = None) es ->
  repStart (TWIInfo s) <> 0 ->
  TWITransmitBuffer s = l1 ++ l2 ++ l3 ->
  TXBuffIndex s = Z.of_nat (length l1) ->
  TXBuffLen s = Z.of_nat (length l1 + length l2) ->
  length es = S (length l2) ->
  exists s',
    run es s = Some s' /\
    bus s' = bus s ++ transmit_all l2 ++ [Start] /\
    errorCode (TWIInfo s') = 255 /\
    repStart (TWIInfo s') = repStart (TWIInfo s) /\
    TWITransmitBuffer s' = TWITransmitBuffer s /\
    TXBuffLen s' = TXBuffLen s /\
    TXBuffIndex s' = TXBuffLen s /\
    TWIReceiveBuffer s' = TWIReceiveBuffer s /\
    RXBuffLen s' = RXBuffLen s /\
    RXBuffIndex s' = RXBuffIndex s.
Proof.
  intros Hes. revert l1 l2 s.
  induction Hes as [| e es [Hst Hdata] Hes IH];
    intros l1 l2 s Hrep Hbuf Hidx Hlen Hn; [discriminate |].
  cbn [run]. unfold seq, deliver, seq. rewrite Hdata. cbn [hw_TWDR].
  destruct l2 as [| b l2].
  - destruct es; [| discriminate].
    destruct (mt_start _ s Hst Hrep) as [m ->];
      [rewrite Hidx, Hlen; cbn; lia |].
    eexists. split; [reflexivity |]. cbn. cbn [length] in Hlen.
    repeat split; auto. lia.
  - destruct (mt_load _ s (length l1) b Hst Hidx) as [m ->].
    { rewrite Hbuf. apply list_lookup_middle. reflexivity. }
    { rewrite Hidx, Hlen. cbn [length]. lia. }
    match goal with
    | |- context [run es ?s1] =>
        destruct (IH (l1 ++ [b]) l2 s1)
          as (s' & Hrun & Hbus & Herr & Hr & Hb & Hl & Hi & Hrb & Hrl & Hri)
    end.
    + exact Hrep.
    + cbn [TWITransmitBuffer]. rewrite Hbuf, <- app_assoc. reflexivity.
    + cbn [TXBuffIndex]. rewrite length_app. cbn. lia.
    + cbn [TXBuffLen]. rewrite Hlen, length_app. cbn. lia.
    + cbn in Hn. lia.
    + exists s'. split; [exact Hrun |]. rewrite Hbus.
      cbn [bus TWIInfo repStart TWITransmitBuffer TXBuffLen TWIReceiveBuffer
           RXBuffLen RXBuffIndex] in *.
      unfold transmit_all. cbn [flat_map]. rewrite <- !app_assoc.
      repeat split; auto.
Qed.

(** A read requested while the start condition is held, carried to its end. *)
Lemma read_from_held (t : State) (TWIaddr : Z) (bytes : list Z) :
  0 <= TWIaddr < 256 ->
  Z.of_nat (length bytes) <= 255 ->
  mode (TWIInfo t) = RepeatedStartSent ->
  buffers_declared t ->
  (1 <= length bytes)%nat ->
  Z.of_nat (length bytes) <= RXMAXBUFLEN ->
  1 <= TXMAXBUFLEN ->
  exists s1 s2,
    let sla := to_uint8 (Z.lor (Z.shiftl TWIaddr 1) 1) in
    TWIReadData TWIaddr (Z.of_nat (length bytes)) 0 t = Some (0, s1) /\
    run (read_events RepeatedStartSent bytes) s1 = Some s2 /\
    TWIInfo s2 = mkInfo Ready 255 0 /\
    TWIReceiveBuffer s2 = bytes ++ drop (length bytes) (TWIReceiveBuffer t) /\
    RXBuffIndex s2 = Z.of_nat (length bytes) /\
    bus s2 =
      bus t ++ [Load sla; Transmit]
        ++ replicate (length bytes - 1) ACK ++ [NACK; Stop].
Proof.
  intros Ha8 Hu8 Hheld [Htx Hrx] Hpos Hcap Htxcap.
  assert (Hready : isTWIReady t = 1) by (apply isTWIReady_1; auto).
  rewrite TWIReadData_started by (assumption || lia). cbv zeta.
  set (sla := to_uint8 (Z.lor (Z.shiftl TWIaddr 1) 1)).
  unfold read_events. rewrite Hheld.
  rewrite !(bool_decide_eq_true_2 _ (eq_refl RepeatedStartSent)).
  assert (Hne : bytes <> []) by (destruct bytes; [cbn in Hpos; lia | congruence]).
  eexists.
  match goal with
  | |- context [Some (0, ?s1)] =>
      destruct (rx_run bytes [] (TWIReceiveBuffer t)
                  (mkState (mkInfo MasterReceiver (errorCode (TWIInfo s1))
                              (repStart (TWIInfo s1)))
                     (TWITransmitBuffer s1) (TXBuffLen s1) (TXBuffIndex s1)
                     (TWIReceiveBuffer s1) (RXBuffLen s1) (RXBuffIndex s1)
                     (TWDR s1) (bus s1)) Hne)
        as (s0 & s2 & Hreply & Hrun & Hinfo & Hbuf & Hi & Hl & Hbus & _);
        [reflexivity | reflexivity | reflexivity | reflexivity | lia |]
  end.
  exists s2. split; [reflexivity |].
  cbn [app run] in *. unfold seq at 1. unfold deliver, seq at 1.
  cbn [ev_data ev_status hw_TWDR]. rewrite ISR_MR_SLAR_ACK.
  unfold seq at 1. unfold set_mode at 1.
  cbn [TWIInfo TWITransmitBuffer TXBuffLen TXBuffIndex TWIReceiveBuffer
       RXBuffLen RXBuffIndex TWDR bus mode errorCode repStart] in *.
  rewrite Hreply. split; [exact Hrun |].
  rewrite Hinfo, Hbuf, Hi, Hbus. cbn. rewrite <- !app_assoc.
  repeat split; reflexivity.
Qed.

Lemma chain_events_split (n : nat) :
  (1 <= n)%nat ->
  chain_events n =
    ([mkEvent TWI_START_SENT None; mkEvent TWI_MT_SLAW_ACK None]
       ++ replicate (n - 1) (mkEvent TWI_MT_DATA_ACK None))
      ++ [mkEvent TWI_REP_START_SENT None] /\
  Forall (fun e => mt_status (ev_status e) /\ ev_data e = None)
    ([mkEvent TWI_START_SENT None; mkEvent TWI_MT_SLAW_ACK None]
       ++ replicate (n - 1) (mkEvent TWI_MT_DATA_ACK None)) /\
  length ([mkEvent TWI_START_SENT None; mkEvent TWI_MT_SLAW_ACK None]
            ++ replicate (n - 1) (mkEvent TWI_MT_DATA_ACK None)) = S n.
Proof.
  intros Hn. split; [| split].
  - unfold chain_events. rewrite <- app_assoc. reflexivity.
  - unfold mt_status. cbn [app].
    constructor; [cbn; auto |]. constructor; [cbn; auto |].
    apply Forall_replicate. cbn. auto.
  - rewrite length_app, length_replicate. cbn. lia.
Qed.

(** X16. Write, then read without releasing the bus (the way a register of
    a slave is read); lengths, address and flag are values of the [uint8_t]
    parameters.  From mode [Ready]: a write of [n >= 1] bytes with
    repeated start, all acknowledged, ends with a second start and the mode
    [RepeatedStartSent]; a read of [m >= 1] bytes requested then, without
    repeated start, sends its address byte with no further start, and ends
    in mode [Ready] with [errorCode = 0xFF].  The bus sees, in this order:
    start, the [n] bytes, start, the read address, [m-1] ACK, NACK, stop;
    and the [m] bytes are at the front of the receive buffer. *)
Theorem X16_write_then_read (s : State) (data bytes : list Z)
    (TWIaddr rep : Z) :
  mode (TWIInfo s) = Ready ->
  buffers_declared s ->
  0 <= TWIaddr < 256 ->
  0 <= rep < 256 ->
  rep <> 0 ->
  (1 <= length data)%nat ->
  Z.of_nat (length data) <= 255 ->
  Z.of_nat (length data) <= TXMAXBUFLEN ->
  (1 <= length bytes)%nat ->
  Z.of_nat (length bytes) <= 255 ->
  Z.of_nat (length bytes) <= RXMAXBUFLEN ->
  exists s1 s2 s3 s4,
    let sla := to_uint8 (Z.lor (Z.shiftl TWIaddr 1) 1) in
    TWITransmitData data (Z.of_nat (length data)) rep s = Some (0, s1) /\
    run (chain_events (length data)) s1 = Some s2 /\
    mode (TWIInfo s2) = RepeatedStartSent /\
    errorCode (TWIInfo s2) = 255 /\
    TWIReadData TWIaddr (Z.of_nat (length bytes)) 0 s2 = Some (0, s3) /\
    run (read_events RepeatedStartSent bytes) s3 = Some s4 /\
    TWIInfo s4 = mkInfo Ready 255 0 /\
    TWIReceiveBuffer s4 = bytes ++ drop (length bytes) (TWIReceiveBuffer s) /\
    bus s4 =
      bus s ++ [Start] ++ transmit_all data ++ [Start]
        ++ [Load sla; Transmit]
        ++ replicate (length bytes - 1) ACK ++ [NACK; Stop].
Proof.
  intros Hmode [Htx Hrx] Ha8 Hrep8 Hrep Hn Hu8 Hcap Hm Hm8 Hrcap.
  assert (Hready : isTWIReady s = 1) by (apply isTWIReady_1; auto).
  rewrite (TWITransmitData_started s data rep Hu8 Hrep8 Hready Hcap) by lia.
  cbv zeta. rewrite Hmode. cbn [bool_decide decide_rel].
  destruct (chain_events_split (length data) Hn) as (-> & Hev & Hlen).
  match goal with
  | |- context [Some (0, ?s1)] =>
      destruct (mt_run_chain _ [] data
                  (drop (length data) (TWITransmitBuffer s)) s1 Hev)
        as (u & Hrun & Hbus & Herr & Hr & Hb & Hl & Hi & Hrb & Hrl & Hri);
        [exact Hrep | reflexivity | reflexivity | reflexivity | exact Hlen |];
      exists s1
  end.
  cbn [TWIInfo repStart bus TWITransmitBuffer TXBuffLen TWIReceiveBuffer
       RXBuffLen RXBuffIndex] in *.
  set (t := mkState (mkInfo RepeatedStartSent (errorCode (TWIInfo u))
                       (repStart (TWIInfo u)))
              (TWITransmitBuffer u) (TXBuffLen u) (TXBuffIndex u)
              (TWIReceiveBuffer u) (RXBuffLen u) (RXBuffIndex u) (TWDR u)
              (bus u)).
  destruct (read_from_held t TWIaddr bytes Ha8 Hm8)
    as (s3 & s4 & Hread & Hrun2 & Hinfo & Hbuf & _ & Hbus2);
    [reflexivity
    | split; subst t; cbn; rewrite ?Hb, ?Hrb, ?length_app, ?length_drop; lia
    | exact Hm | exact Hrcap | lia |].
  exists t, s3, s4. cbv zeta in *.
  split; [reflexivity |].
  split.
  { rewrite run_app, Hrun. cbn [run]. unfold seq, deliver, seq.
    cbn [ev_data ev_status hw_TWDR]. rewrite ISR_REP_START_SENT.
    reflexivity. }
  split; [reflexivity |]. split; [exact Herr |].
  split; [exact Hread |]. split; [exact Hrun2 |]. split; [exact Hinfo |].
  split.
  - rewrite Hbuf. subst t. cbn. rewrite Hrb. reflexivity.
  - rewrite Hbus2. subst t. cbn [bus]. rewrite Hbus, <- !app_assoc.
    reflexivity.
Qed.

End Properties.

(** * The properties at the ATmega header *)

(** The state [atmega_idle] is the one [TWIInit] makes at program start. *)
Lemma atmega_idle_init : TWIInit (@power_on atmega) = Some atmega_idle.
Proof. reflexivity. Qed.

(** The state [atmega_reading] is reached from the idle driver by a read of
    three bytes and the first three bus events. *)
Lemma atmega_reading_reached :
  exists s1,
    @TWIReadData atmega 80 3 0 atmega_idle = Some (0, s1) /\
    @run atmega [mkEvent 8 None; mkEvent 64 None; mkEvent 80 (Some 7)] s1
      = Some atmega_reading.
Proof. eexists. split; vm_compute; reflexivity. Qed.

(** The state [atmega_held] is reached from the idle driver by a write of two
    bytes with repeated start, through [atmega_sending]. *)
Lemma atmega_held_reached :
  exists s1,
    @TWITransmitData atmega [160; 5] 2 1 atmega_idle = Some (0, s1) /\
    @run atmega [mkEvent 8 None; mkEvent 24 None] s1 = Some atmega_sending /\
    @run atmega [mkEvent 40 None; mkEvent 16 None] atmega_sending
      = Some atmega_held.
Proof.
  eexists. split; [vm_compute; reflexivity |].
  split; vm_compute; reflexivity.
Qed.

(** C1 fails as stated.  While a read is under way (the driver is not
    ready), [TWIReadData] returns 2 but has already reset the receive index
    from 1 to 0 and the receive length from 3 to 2; and a write longer than
    the transmit buffer returns 1, not 2. *)
Lemma C1_counterexample :
  isTWIReady atmega_reading = 0 /\
  (exists s',
     @TWIReadData atmega 80 2 0 atmega_reading = Some (2, s') /\
     RXBuffIndex atmega_reading = 1 /\ RXBuffIndex s' = 0 /\
     RXBuffLen atmega_reading = 3 /\ RXBuffLen s' = 2) /\
  @TWITransmitData atmega (replicate 21 0) 21 0 atmega_reading
    = Some (1, atmega_reading).
Proof.
  split; [reflexivity |]. split; [| reflexivity].
  eexists. split; [vm_compute; reflexivity |]. repeat split.
Qed.

Lemma C1_witness :
  isTWIReady atmega_reading = 0 /\
  @TWITransmitData atmega [160; 5] 2 0 atmega_reading
    = Some (2, atmega_reading) /\
  exists s',
    @TWIReadData atmega 80 2 0 atmega_reading = Some (2, s') /\
    TWIInfo s' = TWIInfo atmega_reading /\
    TWITransmitBuffer s' = TWITransmitBuffer atmega_reading /\
    TXBuffLen s' = TXBuffLen atmega_reading /\
    TXBuffIndex s' = TXBuffIndex atmega_reading /\
    TWIReceiveBuffer s' = TWIReceiveBuffer atmega_reading /\
    TWDR s' = TWDR atmega_reading /\
    bus s' = bus atmega_reading.
Proof.
  split; [reflexivity |].
  destruct (@C1_busy_rejected atmega atmega_reading [160; 5] 2 80 2 0 eq_refl)
    as [Hw Hr].
  split.
  - apply Hw; cbn; lia.
  - apply Hr; cbn; lia.
Defined.

Lemma C2_witness :
  isTWIReady atmega_idle = 1 /\
  @buffers_declared atmega atmega_idle /\
  exists s1 s2 acts,
    @TWITransmitData atmega [160; 5] 2 0 atmega_idle = Some (0, s1) /\
    @run atmega (@write_events atmega 2) s1 = Some s2 /\
    mode (TWIInfo s2) = Ready /\
    errorCode (TWIInfo s2) = 255 /\
    bus s2 = bus atmega_idle ++ acts /\
    acts = [Start; Load 160; Transmit; Load 5; Transmit; Stop; Stop] /\
    loads acts = [160; 5] /\
    last acts = Some Stop.
Proof.
  split; [reflexivity |]. split; [split; reflexivity |].
  apply (@C2_write_completes atmega atmega_idle [160; 5]).
  - reflexivity.
  - split; reflexivity.
  - cbn. lia.
  - cbn. lia.
  - cbn. lia.
Defined.


Lemma C4_witness :
  repStart (TWIInfo atmega_sending) <> 0 /\
  mode (TWIInfo atmega_held) = RepeatedStartSent /\
  @buffers_declared atmega atmega_held /\
  (exists s1,
     @ISR atmega 40 atmega_sending = Some s1 /\
     bus s1 = bus atmega_sending ++ [Start] /\
     @ISR atmega 16 s1 = Some atmega_held) /\
  (exists t',
     @TWITransmitData atmega [160; 6] 2 0 atmega_held = Some (0, t') /\
     bus t' = bus atmega_held ++ [Load 160; Transmit]) /\
  (exists t',
     @TWIReadData atmega 80 2 0 atmega_held = Some (0, t') /\
     bus t' = bus atmega_held ++ [Load 161; Transmit]).
Proof.
  assert (Hrep : repStart (TWIInfo atmega_sending) <> 0) by (cbn; lia).
  split; [exact Hrep |]. split; [reflexivity |]. split; [split; reflexivity |].
  destruct (@C4_repeated_start atmega atmega_sending atmega_held [160; 6]
              80 2 0 ltac:(lia) ltac:(lia) ltac:(lia) ltac:(cbn; lia)
              Hrep eq_refl)
    as (Hend & _ & _ & Hrs & (b0 & Hb0 & Hw) & Hr).
  - split; reflexivity.
  - cbn. lia.
  - cbn. lia.
  - cbn. lia.
  - split; [| split].
    + destruct (Hend 40) as (m & Hisr & Hm).
      * right. right. reflexivity.
      * cbn. lia.
      * eexists. split; [exact Hisr |]. split; [reflexivity |].
        rewrite Hrs. rewrite Hm by (cbn; lia). reflexivity.
    + injection Hb0 as <-. eexists. split; [exact Hw | reflexivity].
    + eexists. split; [exact Hr | reflexivity].
Defined.

(** C5 fails as stated.  After a write of two bytes has been requested, the
    start-sent status loads the first byte but leaves the mode at
    [Initializing]; and the repeated-start-sent status sets the mode to
    [RepeatedStartSent] and loads nothing. *)
Lemma C5_counterexample :
  exists s1 s2,
    @TWITransmitData atmega [160; 5] 2 0 atmega_idle = Some (0, s1) /\
    @ISR atmega 8 s1 = Some s2 /\
    mode (TWIInfo s2) = Initializing /\
    mode (TWIInfo s2) <> MasterTransmitter /\
    bus s2 = bus s1 ++ [Load 160; Transmit] /\
    @ISR atmega 16 atmega_sending
      = Some (mkState (mkInfo RepeatedStartSent 248 1)
                (TWITransmitBuffer atmega_sending) 2 2
                (TWIReceiveBuffer atmega_sending) 0 0 5
                (bus atmega_sending)).
Proof.
  eexists. eexists. split; [vm_compute; reflexivity |].
  split; [vm_compute; reflexivity |].
  repeat split; try reflexivity. discriminate.
Qed.

Lemma C5_witness :
  TXBuffIndex atmega_writing < TXBuffLen atmega_writing /\
  array_get (TWITransmitBuffer atmega_writing) (TXBuffIndex atmega_writing)
    = Some 160 /\
  @ISR atmega 8 atmega_writing = @ISR atmega 40 atmega_writing /\
  @ISR atmega 8 atmega_writing =
    Some (mkState (mkInfo Initializing 248 0)
            (TWITransmitBuffer atmega_writing) 2 1
            (TWIReceiveBuffer atmega_writing) 0 0 160
            (bus atmega_writing ++ [Load 160; Transmit])) /\
  @ISR atmega 24 atmega_writing =
    Some (mkState (mkInfo MasterTransmitter 248 0)
            (TWITransmitBuffer atmega_writing) 2 1
            (TWIReceiveBuffer atmega_writing) 0 0 160
            (bus atmega_writing ++ [Load 160; Transmit])) /\
  @ISR atmega 16 atmega_sending =
    Some (mkState (mkInfo RepeatedStartSent 248 1)
            (TWITransmitBuffer atmega_sending) 2 2
            (TWIReceiveBuffer atmega_sending) 0 0 5 (bus atmega_sending)) /\
  TXBuffLen atmega_sending <= TXBuffIndex atmega_sending /\
  @ISR atmega 8 atmega_sending =
    Some (mkState (mkInfo MasterTransmitter 255 1)
            (TWITransmitBuffer atmega_sending) 2 2
            (TWIReceiveBuffer atmega_sending) 0 0 5
            (bus atmega_sending ++ [Start])).
Proof.
  assert (Hlt : TXBuffIndex atmega_writing < TXBuffLen atmega_writing)
    by (cbn; lia).
  assert (Hget : array_get (TWITransmitBuffer atmega_writing)
                   (TXBuffIndex atmega_writing) = Some 160) by reflexivity.
  assert (Hge : TXBuffLen atmega_sending <= TXBuffIndex atmega_sending)
    by (cbn; lia).
  destruct (@C5_start_sent atmega atmega_writing)
    as (Hsame & _ & _ & Hleft & _).
  destruct (Hleft 160 Hlt Hget) as [Hstart Hslaw].
  destruct (@C5_start_sent atmega atmega_sending)
    as (_ & _ & Hrs & _ & Hnone).
  split; [exact Hlt |]. split; [exact Hget |]. split; [exact Hsame |].
  split; [exact Hstart |]. split; [exact Hslaw |]. split; [exact Hrs |].
  split; [exact Hge |]. exact (Hnone Hge).
Defined.

(** C6 fails as stated.  A read of no byte is accepted; after the address
    has been acknowledged the routine answers NACK, and the byte that then
    arrives is stored: the receive index is 1, above the receive length 0. *)
Lemma C6_counterexample :
  cursors_within atmega_idle /\
  exists s1 s2,
    @TWIReadData atmega 80 0 0 atmega_idle = Some (0, s1) /\
    cursors_within s1 /\
    @run atmega [mkEvent 8 None; mkEvent 64 None; mkEvent 88 (Some 7)] s1
      = Some s2 /\
    RXBuffIndex s2 = 1 /\ RXBuffLen s2 = 0 /\
    ~ cursors_within s2.
Proof.
  split; [split; cbn; lia |].
  eexists. eexists. split; [vm_compute; reflexivity |].
  split; [split; cbn; lia |].
  split; [vm_compute; reflexivity |].
  split; [reflexivity |]. split; [reflexivity |].
  intros [_ Hrx]. cbn in Hrx. lia.
Qed.

Lemma C6_witness :
  cursors_within atmega_reading /\
  (exists s0,
     TWIInit (@power_on atmega) = Some s0 /\ cursors_within s0) /\
  (forall s',
     @ISR atmega 80 atmega_reading = Some s' -> cursors_within s') /\
  (forall r s',
     @TWIReadData atmega 80 2 0 atmega_reading = Some (r, s') ->
     cursors_within s').
Proof.
  assert (Hinv : cursors_within atmega_reading) by (split; cbn; lia).
  split; [exact Hinv |].
  destruct (@C6_cursors_within atmega atmega_reading Hinv)
    as (Hinit & _ & _ & Hread & Hisr).
  split; [exact Hinit |]. split.
  - intros s' Hs. apply (Hisr 80 s' Hs). intros _. cbn. lia.
  - intros r s' Hs. apply (Hread 80 2 0 r s'); [lia | exact Hs].
Defined.

Lemma C7_witness :
  repStart (TWIInfo atmega_reading) = 0 /\
  @ISR atmega 56 atmega_reading =
    Some (mkState (mkInfo Ready 56 0)
            (TWITransmitBuffer atmega_reading) 1 1
            (TWIReceiveBuffer atmega_reading) 3 1 7
            (bus atmega_reading ++ [Stop])).
Proof.
  split; [reflexivity |].
  exact (@C7_arbitration_lost atmega atmega_reading eq_refl).
Defined.

(** C8 fails as stated.  The length and the count are [uint8_t]
    parameters: a write of 276 bytes, above the capacity of 20, is taken as a
    write of 276 - 256 = 20 bytes and started; a read of 256 bytes is taken
    as a read of no byte and started.  Neither returns 1. *)
Lemma C8_counterexample :
  @TXMAXBUFLEN atmega < Z.of_nat (length (replicate 276 7)) /\
  (exists s',
     @TWITransmitData atmega (replicate 276 7) 276 0 atmega_idle
       = Some (0, s') /\
     TXBuffLen s' = 20 /\
     TWITransmitBuffer s' = replicate 20 7 /\
     bus s' = [Configure; Start]) /\
  @RXMAXBUFLEN atmega < 256 /\
  (exists s',
     @TWIReadData atmega 80 256 0 atmega_idle = Some (0, s') /\
     RXBuffLen s' = 0 /\
     mode (TWIInfo s') = Initializing /\
     bus s' = [Configure; Start]).
Proof.
  split; [vm_compute; reflexivity |].
  split; [eexists; split; [vm_compute; reflexivity |];
          split; [reflexivity |]; split; reflexivity |].
  split; [vm_compute; reflexivity |].
  eexists. split; [vm_compute; reflexivity |].
  split; [reflexivity |]. split; reflexivity.
Qed.

Lemma C8_witness :
  @TXMAXBUFLEN atmega < 21 /\ @RXMAXBUFLEN atmega < 21 /\
  @TWITransmitData atmega (replicate 21 0) 21 0 atmega_idle
    = Some (1, atmega_idle) /\
  @TWIReadData atmega 80 21 0 atmega_idle = Some (1, atmega_idle).
Proof.
  destruct (@C8_overflow_rejected atmega atmega_idle (replicate 21 0) 21 80 21 0)
    as [Hw Hr].
  split; [cbn; lia |]. split; [cbn; lia |]. split.
  - apply Hw; cbn; lia.
  - apply Hr; cbn; lia.
Defined.

Lemma C9_witness :
  0 <= 80 < 128 /\ 3 <= @RXMAXBUFLEN atmega /\
  @TWIReadData atmega 80 3 1 atmega_idle =
    match
      @TWITransmitData atmega [161] 1 1
        (mkState (TWIInfo atmega_idle) (TWITransmitBuffer atmega_idle) 0 0
           (TWIReceiveBuffer atmega_idle) 3 0 0 (bus atmega_idle))
    with
    | Some (r, s2) => if r =? 2 then Some (2, s2) else Some (0, s2)
    | None => None
    end /\
  exists s',
    @TWIReadData atmega 80 3 1 atmega_idle = Some (0, s') /\
    TWITransmitBuffer s' !! 0%nat = Some 161 /\
    TXBuffLen s' = 1 /\
    repStart (TWIInfo s') = 1.
Proof.
  assert (Haddr : 0 <= 80 < 128) by lia.
  assert (Hn : 3 <= @RXMAXBUFLEN atmega) by (cbn; lia).
  split; [exact Haddr |]. split; [exact Hn |].
  destruct (@C9_read_address_byte atmega atmega_idle 80 3 1 Haddr
              ltac:(lia) ltac:(lia) Hn)
    as [Heq Hacc].
  split; [exact Heq |].
  apply Hacc; [reflexivity | split; reflexivity | cbn; lia].
Defined.

Lemma C10_witness :
  exists s',
    @ISR atmega 80 atmega_reading = Some s' /\
    TWITransmitBuffer s' = TWITransmitBuffer atmega_reading /\
    TXBuffLen s' = 1 /\ RXBuffLen s' = 3 /\
    repStart (TWIInfo s') = 0.
Proof.
  eexists. split; [vm_compute; reflexivity |].
  match goal with
  | |- TWITransmitBuffer ?s' = _ /\ _ =>
      destruct (@C10_ISR_frame atmega 80 atmega_reading s' eq_refl)
        as (Hb & Hl & Hrl & Hrep & _)
  end.
  repeat split; assumption.
Defined.

(** * The further properties at the ATmega header *)

(** The state [atmega_writing] is the idle driver after a write request of
    two bytes. *)
Lemma atmega_writing_reached :
  @TWITransmitData atmega [160; 5] 2 0 atmega_idle = Some (0, atmega_writing).
Proof. vm_compute. reflexivity. Qed.

Lemma X1_witness :
  (96 ∉ @acting_labels atmega) /\
  @ISR atmega 96 atmega_reading = Some atmega_reading /\
  @ISR atmega 248 atmega_reading = Some atmega_reading.
Proof.
  assert (H96 : 96 ∉ @acting_labels atmega).
  { apply (bool_decide_unpack _). vm_compute. exact I. }
  assert (H248 : 248 ∉ @acting_labels atmega).
  { apply (bool_decide_unpack _). vm_compute. exact I. }
  split; [exact H96 |]. split.
  - exact (@X1_unhandled_status_ignored atmega 96 atmega_reading H96).
  - exact (@X1_unhandled_status_ignored atmega 248 atmega_reading H248).
Defined.

Lemma X2_witness :
  exists s',
    @ISR atmega 0 atmega_sending = Some s' /\
    TWIInfo s' = mkInfo Ready 0 1 /\
    bus s' = bus atmega_sending ++ [Stop] /\
    isTWIReady s' = 1.
Proof.
  destruct (@X2_illegal_start_stop atmega atmega_sending) as [Heq Hready].
  eexists. split; [exact Heq |].
  split; [reflexivity |]. split; [reflexivity |].
  apply Hready. exact Heq.
Defined.

Lemma X3_witness :
  @error_status atmega 32 /\
  repStart (TWIInfo atmega_writing) = 0 /\
  exists s',
    @ISR atmega 32 atmega_writing = Some s' /\
    TWIInfo s' = mkInfo Ready 32 0 /\
    bus s' = bus atmega_writing ++ [Stop] /\
    isTWIReady s' = 1.
Proof.
  assert (Hst : @error_status atmega 32) by (right; left; reflexivity).
  split; [exact Hst |]. split; [reflexivity |].
  destruct (@X3_bus_error_releases atmega 32 atmega_writing Hst eq_refl)
    as [Heq Hready].
  eexists. split; [exact Heq |].
  split; [reflexivity |]. split; [reflexivity |].
  apply Hready. exact Heq.
Defined.

Lemma X4_witness :
  is_Some (@ISR atmega 80 atmega_reading) /\
  ~ is_Some (@ISR atmega 80 atmega_rx_full) /\
  ~ is_Some (@ISR atmega 88 atmega_rx_full).
Proof.
  split; [| split].
  - apply (@X4_receive_store_bounds atmega 80 atmega_reading).
    + left. reflexivity.
    + cbn. lia.
  - intros Hsome.
    apply (@X4_receive_store_bounds atmega 80 atmega_rx_full) in Hsome.
    + cbn in Hsome. lia.
    + left. reflexivity.
  - intros Hsome.
    apply (@X4_receive_store_bounds atmega 88 atmega_rx_full) in Hsome.
    + cbn in Hsome. lia.
    + right. reflexivity.
Defined.

Lemma X5_witness :
  0 <= 80 < 128 /\
  @TWIReadData atmega 208 3 0 atmega_idle
    = @TWIReadData atmega 80 3 0 atmega_idle /\
  to_uint8 (Z.lor (Z.shiftl 208 1) 1) = 161.
Proof.
  assert (Ha : 0 <= 80 < 128) by lia.
  split; [exact Ha |].
  exact (@X5_address_bit7_dropped atmega 80 3 0 atmega_idle Ha).
Defined.

Lemma X6_witness :
  isTWIReady atmega_held = 1 /\
  @buffers_declared atmega atmega_held /\
  exists s',
    @TWITransmitData atmega [162; 9] 1 0 atmega_held = Some (0, s') /\
    TWITransmitBuffer s' = 162 :: 5 :: replicate 18 0 /\
    length (TWITransmitBuffer s') = 20%nat /\
    TXBuffLen s' = 1 /\
    TWIInfo s' = mkInfo Initializing 255 0 /\
    TWIReceiveBuffer s' = TWIReceiveBuffer atmega_held /\
    RXBuffLen s' = 0 /\
    RXBuffIndex s' = 0.
Proof.
  split; [reflexivity |]. split; [split; reflexivity |].
  apply (@X6_write_copies_prefix atmega atmega_held [162; 9] 1 0).
  - cbn. lia.
  - lia.
  - reflexivity.
  - split; reflexivity.
  - cbn. lia.
  - cbn. lia.
  - cbn. lia.
Defined.

Lemma X7_witness :
  isTWIReady atmega_idle = 1 /\
  3 <= @TXMAXBUFLEN atmega /\
  Z.of_nat (length [160]) < 3 /\
  @TWITransmitData atmega [160] 3 0 atmega_idle = None.
Proof.
  split; [reflexivity |]. split; [cbn; lia |]. split; [cbn; lia |].
  apply (@X7_write_reads_past_data atmega atmega_idle [160] 3 0).
  - reflexivity.
  - lia.
  - cbn. lia.
  - cbn. lia.
Defined.

Lemma X8_witness :
  @TWITransmitData atmega [160; 5] 2 0 atmega_idle = Some (0, atmega_writing) /\
  isTWIReady atmega_writing = 0 /\
  @TWITransmitData atmega [162] 1 0 atmega_writing = Some (2, atmega_writing).
Proof.
  assert (Hacc : @TWITransmitData atmega [160; 5] 2 0 atmega_idle
                 = Some (0, atmega_writing)) by (vm_compute; reflexivity).
  split; [exact Hacc |].
  destruct (@X8_second_request_busy atmega atmega_idle atmega_writing
              [160; 5] 2 80 3 0 (or_introl Hacc)) as [Hbusy Hnext].
  split; [exact Hbusy |].
  apply Hnext; cbn; lia.
Defined.

Lemma X9_witness :
  isTWIReady atmega_reading = 0 /\
  exists s0 s1,
    TWIInit atmega_reading = Some s0 /\
    isTWIReady s0 = 1 /\
    RXBuffLen s0 = 3 /\ RXBuffIndex s0 = 1 /\
    @TWITransmitData atmega [160; 5] 2 0 s0 = Some (0, s1) /\
    bus s1 = bus atmega_reading ++ [Configure; Start].
Proof.
  split; [reflexivity |].
  destruct (@X9_init_makes_ready atmega atmega_reading [160; 5] 0)
    as (s0 & s1 & Hinit & Hready & _ & _ & _ & _ & _ & Hrl & Hri & Hw & Hbus).
  - cbn. lia.
  - cbn. lia.
  - cbn. lia.
  - exists s0, s1. repeat split; assumption.
Defined.

Lemma X10_witness :
  @TXMAXBUFLEN no_tx_buffer < 1 /\
  3 <= @RXMAXBUFLEN no_tx_buffer /\
  @TWIReadData no_tx_buffer 80 3 0 no_tx_idle =
    Some (0, mkState (mkInfo Ready 255 0) [] 0 0 (replicate 20 0) 3 0 0
               [Configure]).
Proof.
  split; [cbn; lia |]. split; [cbn; lia |].
  apply (@X10_read_without_tx_buffer no_tx_buffer no_tx_idle 80 3 0).
  - cbn. lia.
  - lia.
  - cbn. lia.
Defined.

Lemma X11_witness :
  mode (TWIInfo atmega_idle) = Ready /\
  exists s1 s2,
    @TWITransmitData atmega [] 0 0 atmega_idle = Some (0, s1) /\
    @ISR atmega 8 s1 = Some s2 /\
    bus s2 = [Configure; Start; Stop] /\
    TWIInfo s2 = mkInfo Ready 255 0 /\
    TXBuffLen s2 = 0 /\ TXBuffIndex s2 = 0 /\
    TWITransmitBuffer s2 = TWITransmitBuffer atmega_idle.
Proof.
  split; [reflexivity |].
  apply (@X11_empty_write atmega atmega_idle []).
  - reflexivity.
  - cbn. lia.
Defined.

Lemma X12_witness :
  @tx_safe atmega atmega_writing /\
  @tx_safe atmega (@power_on atmega) /\
  is_Some (@ISR atmega 8 atmega_writing) /\
  (forall s', @ISR atmega 8 atmega_writing = Some s' -> @tx_safe atmega s').
Proof.
  assert (Hsafe : @tx_safe atmega atmega_writing).
  { split; [split; reflexivity |]. cbn. lia. }
  split; [exact Hsafe |].
  destruct (@X12_transmit_stays_in_bounds atmega atmega_writing)
    as (Hpower & _ & _ & _ & Hisr & Hdef).
  - cbn. lia.
  - cbn. lia.
  - exact Hsafe.
  - split; [exact Hpower |]. split.
    + apply Hdef; cbn; lia.
    + intros s'. apply Hisr.
Defined.

Lemma X13_witness :
  exists s' acts,
    @run atmega [mkEvent 8 None; mkEvent 24 None; mkEvent 40 None]
      atmega_writing = Some s' /\
    bus s' = bus atmega_writing ++ acts /\
    loads acts = [160; 5] /\
    TXBuffIndex s' = 2.
Proof.
  eexists.
  match goal with
  | |- exists acts, ?r = Some ?s' /\ _ =>
      assert (Hrun : r = Some s') by (vm_compute; reflexivity);
      destruct (@X13_run_sends_queued_bytes atmega _ atmega_writing s' Hrun)
        as (acts & Hbus & Hloads & _); [cbn; lia |];
      exists acts
  end.
  split; [exact Hrun |]. split; [exact Hbus |]. split; [exact Hloads |].
  reflexivity.
Defined.

Lemma X14_witness :
  exists s',
    @run atmega [mkEvent 80 (Some 8); mkEvent 88 (Some 9)] atmega_reading
      = Some s' /\
    length (TWIReceiveBuffer s') = 20%nat /\
    take 1 (TWIReceiveBuffer s') = [7] /\
    RXBuffLen s' = 3.
Proof.
  eexists.
  match goal with
  | |- ?r = Some ?s' /\ _ =>
      assert (Hrun : r = Some s') by (vm_compute; reflexivity);
      destruct (@X14_run_keeps_received_bytes atmega _ atmega_reading s' Hrun)
        as (Hlen & Htake & _ & Hl); [cbn; lia |]
  end.
  split; [exact Hrun |]. split; [exact Hlen |]. split; [exact Htake |].
  exact Hl.
Defined.

Lemma X15_witness :
  mode (TWIInfo atmega_idle) = Ready /\
  @buffers_declared atmega atmega_idle /\
  exists s1 s2,
    @TWITransmitData atmega [160; 5] 2 0 atmega_idle = Some (0, s1) /\
    @run atmega [mkEvent 8 None; mkEvent 32 None] s1 = Some s2 /\
    TWIInfo s2 = mkInfo Ready 32 0 /\
    isTWIReady s2 = 1 /\
    TXBuffIndex s2 = 1 /\
    bus s2 = [Configure; Start; Load 160; Transmit; Stop].
Proof.
  split; [reflexivity |]. split; [split; reflexivity |].
  apply (@X15_address_nack_aborts_write atmega atmega_idle 160 [5]).
  - reflexivity.
  - split; reflexivity.
  - cbn. lia.
  - cbn. lia.
Defined.

Lemma X16_witness :
  mode (TWIInfo atmega_idle) = Ready /\
  @buffers_declared atmega atmega_idle /\
  exists s1 s2 s3 s4,
    @TWITransmitData atmega [160; 5] 2 1 atmega_idle = Some (0, s1) /\
    @run atmega (@chain_events atmega 2) s1 = Some s2 /\
    mode (TWIInfo s2) = RepeatedStartSent /\
    errorCode (TWIInfo s2) = 255 /\
    @TWIReadData atmega 80 3 0 s2 = Some (0, s3) /\
    @run atmega (@read_events atmega RepeatedStartSent [7; 8; 9]) s3
      = Some s4 /\
    TWIInfo s4 = mkInfo Ready 255 0 /\
    TWIReceiveBuffer s4 = [7; 8; 9] ++ replicate 17 0 /\
    bus s4 =
      [Configure; Start; Load 160; Transmit; Load 5; Transmit; Start;
       Load 161; Transmit; ACK; ACK; NACK; Stop].
Proof.
  split; [reflexivity |]. split; [split; reflexivity |].
  apply (@X16_write_then_read atmega atmega_idle [160; 5] [7; 8; 9] 80 1).
  - reflexivity.
  - split; reflexivity.
  - lia.
  - lia.
  - lia.
  - cbn. lia.
  - cbn. lia.
  - cbn. lia.
  - cbn. lia.
  - cbn. lia.
  - cbn. lia.
Defined.
